(** * pdf_service: the academic report generator

    A shallow embedding of [PDFReportGenerator] (pdf_service.py).

    - [Py] holds the Python values and built-ins the service relies on:
      exceptions, [int] and [float] numbers with their [+], the format
      specification [.2f] and [str()].
    - [Reportlab] holds the data handed to the layout engine
      (paragraphs, table, canvas commands), and the runtime a page hook
      runs in: the date text and [str.upper], which follows the Unicode
      tables of the interpreter.
    - [Sys] holds the interaction with the outside world (file system,
      layout engine, callback) as a tree of calls, and its runs.
    - [PDFReportGenerator] is the class itself.
    - [Nominal] is a reference environment to run the service in,
      [Sample] holds inputs, [Props] the vocabulary of the properties.

    The properties C1 to C10 follow; they hold for every environment,
    that is for every way the file system and the layout engine may
    answer or fail. *)

From Stdlib Require Import ZArith List String Ascii Bool Lia.
From Stdlib Require Import SpecFloat DecimalString.
Import ListNotations.
Local Open Scope string_scope.
Local Open Scope Z_scope.

(* ================================================================== *)
(** * Python values and built-ins                                       *)
(* ================================================================== *)

Module Py.

(** An instance of (a subclass of) Python's [Exception]: its class name
    and the text [str(e)] gives.  These are the exceptions an
    [except Exception] clause handles. *)
Record exn : Type := Exception { exn_class : string; exn_str : string }.

Definition OverflowError (msg : string) : exn := Exception "OverflowError" msg.

(** The outcome of evaluating an expression: a value, or an exception. *)
Inductive outcome (A : Type) : Type :=
| Normal (a : A)
| Raised (e : exn).
Arguments Normal {A} a.
Arguments Raised {A} e.

Definition obind {A B} (o : outcome A) (f : A -> outcome B) : outcome B :=
  match o with
  | Normal a => f a
  | Raised e => Raised e
  end.

(** ** Numbers: [int] (unbounded) and [float] (IEEE 754 binary64) *)

Definition prec : Z := 53.
Definition emax : Z := 1024.

Inductive number : Type :=
| PyInt (z : Z)
| PyFloat (f : spec_float).

(** [float(z)]: nearest binary64, ties to even; too large an [int]
    raises. *)
Definition int_to_float (z : Z) : outcome spec_float :=
  match binary_normalize prec emax z 0 false with
  | S754_infinity _ => Raised (OverflowError "int too large to convert to float")
  | f => Normal f
  end.

(** The binary64 nearest to [n / d], for building float inputs
    ([n] and [d] below 2^53 in absolute value, [d] not zero). *)
Definition float_of_ratio (n d : Z) : spec_float :=
  SFdiv prec emax (binary_normalize prec emax n 0 false)
                  (binary_normalize prec emax d 0 false).

(** [a + b] *)
Definition py_add (a b : number) : outcome number :=
  match a, b with
  | PyInt x, PyInt y => Normal (PyInt (x + y))
  | PyInt x, PyFloat g =>
      obind (int_to_float x) (fun f => Normal (PyFloat (SFadd prec emax f g)))
  | PyFloat f, PyInt y =>
      obind (int_to_float y) (fun g => Normal (PyFloat (SFadd prec emax f g)))
  | PyFloat f, PyFloat g => Normal (PyFloat (SFadd prec emax f g))
  end.

(** [a - b] *)
Definition py_sub (a b : number) : outcome number :=
  match a, b with
  | PyInt x, PyInt y => Normal (PyInt (x - y))
  | PyInt x, PyFloat g =>
      obind (int_to_float x) (fun f => Normal (PyFloat (SFsub prec emax f g)))
  | PyFloat f, PyInt y =>
      obind (int_to_float y) (fun g => Normal (PyFloat (SFsub prec emax f g)))
  | PyFloat f, PyFloat g => Normal (PyFloat (SFsub prec emax f g))
  end.

Definition ZeroDivisionError (msg : string) : exn := Exception "ZeroDivisionError" msg.

(** [f / b] for a float [f] *)
Definition float_truediv (f : spec_float) (b : number) : outcome number :=
  let div g :=
    match g with
    | S754_zero _ => Raised (ZeroDivisionError "float division by zero")
    | _ => Normal (PyFloat (SFdiv prec emax f g))
    end in
  match b with
  | PyInt y => obind (int_to_float y) div
  | PyFloat g => div g
  end.

(** ** Decimal numerals *)

(** [str(z)] for an [int]. *)
Definition dec (z : Z) : string := NilZero.string_of_int (Z.to_int z).

Definition digit (d : Z) : ascii := ascii_of_nat (48 + Z.to_nat d).

Definition is_digit (c : ascii) : bool :=
  let n := nat_of_ascii c in (Nat.leb 48 n && Nat.leb n 57)%bool.

Fixpoint all_digits (s : string) : bool :=
  match s with
  | EmptyString => true
  | String c r => is_digit c && all_digits r
  end.

Definition sign_str (s : bool) : string := if s then "-" else "".

(** ** The format specification [.2f] *)

(** [num / den] ([den] positive) rounded to the nearest integer, ties to
    even. *)
Definition round_half_even (num den : Z) : Z :=
  let q := num / den in
  let r := num mod den in
  match 2 * r ?= den with
  | Lt => q
  | Gt => q + 1
  | Eq => if Z.even q then q else q + 1
  end.

(** [m * 2^e * 100], correctly rounded to an integer. *)
Definition hundredths (m : positive) (e : Z) : Z :=
  if 0 <=? e then Zpos m * 2 ^ e * 100
  else round_half_even (Zpos m * 100) (2 ^ (- e)).

(** A count [n >= 0] of hundredths written with two decimals. *)
Definition fixed2 (n : Z) : string :=
  dec (n / 100) ++ "." ++ String (digit (n / 10 mod 10)) (String (digit (n mod 10)) "").

(** [format(f, ".2f")] for a float. *)
Definition float_format_2f (f : spec_float) : string :=
  match f with
  | S754_nan => "nan"
  | S754_infinity s => sign_str s ++ "inf"
  | S754_zero s => sign_str s ++ "0.00"
  | S754_finite s m e => sign_str s ++ fixed2 (hundredths m e)
  end.

(** [f"{x:.2f}"]: an [int] is first converted to [float]. *)
Definition format_2f (x : number) : outcome string :=
  match x with
  | PyInt z => obind (int_to_float z) (fun f => Normal (float_format_2f f))
  | PyFloat f => Normal (float_format_2f f)
  end.

(** ** [repr] of a float: the shortest numeral that reads back *)

(** Compare [a * 2^p] with [c * 10^q]. *)
Definition cmp_scaled (a p c q : Z) : comparison :=
  (a * 2 ^ Z.max p 0 * 10 ^ Z.max (- q) 0) ?= (c * 10 ^ Z.max q 0 * 2 ^ Z.max (- p) 0).

(** The [k] with [10^(k-1) <= m * 2^e < 10^k]. *)
Fixpoint decpt_from (fuel : nat) (m e k : Z) : Z :=
  match fuel with
  | O => k
  | S fuel' =>
      match cmp_scaled m e 1 k with
      | Lt => k
      | _ => decpt_from fuel' m e (k + 1)
      end
  end.

Definition decpt (m : positive) (e : Z) : Z :=
  let b := Z.log2 (Zpos m) + e in
  decpt_from 8 (Zpos m) e (b * 30102 / 100000 - 2).

(** [floor (m * 2^e / 10^q)] *)
Definition floor_scaled (m e q : Z) : Z :=
  (m * 2 ^ Z.max e 0 * 10 ^ Z.max (- q) 0) / (10 ^ Z.max q 0 * 2 ^ Z.max (- e) 0).

(** Does [c * 10^q] round to the float [m * 2^e]?  The interval runs
    between the midpoints to the neighbouring floats, closed when [m]
    is even. *)
Definition reads_back (m : positive) (e : Z) (c q : Z) : bool :=
  let lo := if (Zpos m =? 2 ^ (prec - 1)) && (emin prec emax <? e)
            then 4 * Zpos m - 1 else 4 * Zpos m - 2 in
  let hi := 4 * Zpos m + 2 in
  let closed := Z.even (Zpos m) in
  let above := match cmp_scaled lo (e - 2) c q with
               | Lt => true | Eq => closed | Gt => false end in
  let below := match cmp_scaled hi (e - 2) c q with
               | Gt => true | Eq => closed | Lt => false end in
  above && below.

(** The candidate with [n] digits, if one reads back: of the two
    [n]-digit numerals around the value, the nearer one that does. *)
Definition candidate (m : positive) (e k : Z) (n : Z) : option (Z * Z) :=
  let q := k - n in
  let c := floor_scaled (Zpos m) e q in
  let lo_ok := reads_back m e c q in
  let hi_ok := reads_back m e (c + 1) q in
  let nearer_lo := match cmp_scaled (2 * Zpos m) e (2 * c + 1) q with
                   | Lt => true | Eq => Z.even c | Gt => false end in
  if lo_ok && (nearer_lo || negb hi_ok) then Some (c, q)
  else if hi_ok then Some (c + 1, q)
  else None.

Fixpoint shortest (fuel : nat) (m : positive) (e k : Z) (n : Z) : Z * Z :=
  match fuel with
  | O => (floor_scaled (Zpos m) e (k - n), k - n)
  | S fuel' =>
      match candidate m e k n with
      | Some r => r
      | None => shortest fuel' m e k (n + 1)
      end
  end.

Fixpoint strip_zeros (fuel : nat) (c q : Z) : Z * Z :=
  match fuel with
  | O => (c, q)
  | S fuel' => if (c mod 10 =? 0) && (0 <? c) then strip_zeros fuel' (c / 10) (q + 1) else (c, q)
  end.

Fixpoint zeros (n : nat) : string :=
  match n with
  | O => ""
  | S n' => String "0" (zeros n')
  end.

(** The exponent as C's ["%+.02d"] prints it. *)
Definition exp_str (x : Z) : string :=
  (if x <? 0 then "-" else "+") ++
  (if Z.abs x <? 10 then "0" else "") ++ dec (Z.abs x).

(** Digits [ds] with the decimal point after [dp] of them, as [repr]
    lays them out (exponent form outside [-4 < dp <= 16]). *)
Definition layout (ds : string) (dp : Z) : string :=
  let n := Z.of_nat (String.length ds) in
  if (dp <=? -4) || (16 <? dp) then
    substring 0 1 ds ++
    (if 1 <? n then "." ++ substring 1 (String.length ds - 1) ds else "") ++
    "e" ++ exp_str (dp - 1)
  else if dp <=? 0 then "0." ++ zeros (Z.to_nat (- dp)) ++ ds
  else if n <=? dp then ds ++ zeros (Z.to_nat (dp - n)) ++ ".0"
  else substring 0 (Z.to_nat dp) ds ++ "." ++
       substring (Z.to_nat dp) (String.length ds - Z.to_nat dp) ds.

Definition float_repr (f : spec_float) : string :=
  match f with
  | S754_nan => "nan"
  | S754_infinity s => sign_str s ++ "inf"
  | S754_zero s => sign_str s ++ "0.0"
  | S754_finite s m e =>
      let '(c, q) := shortest 17 m e (decpt m e) 1 in
      let '(c, q) := strip_zeros 20 c q in
      let ds := dec c in
      sign_str s ++ layout ds (q + Z.of_nat (String.length ds))
  end.

Definition ValueError (msg : string) : exn := Exception "ValueError" msg.

(** [sys.int_info.default_max_str_digits] *)
Definition max_str_digits : Z := 4300.

(** [str(x)]: an [int] of more than [max_str_digits] digits raises. *)
Definition py_str (x : number) : outcome string :=
  match x with
  | PyInt z =>
      if Z.of_nat (String.length (dec (Z.abs z))) <=? max_str_digits
      then Normal (dec z)
      else Raised (ValueError
             "Exceeds the limit (4300 digits) for integer string conversion; use sys.set_int_max_str_digits() to increase the limit")
  | PyFloat f => Normal (float_repr f)
  end.

End Py.


(* ================================================================== *)
(** * Data handed to the layout engine                                  *)
(* ================================================================== *)

Module Reportlab.
Import Py.

(** [reportlab.lib.colors] *)
Inductive color : Type :=
| HexColor (hex : string)
| white
| gray.

(** [reportlab.lib.enums] *)
Inductive alignment : Type := TA_LEFT | TA_CENTER.

Definition of_int (z : Z) : spec_float := binary_normalize prec emax z 0 false.

(** [reportlab.lib.units]: [inch = 72.0], [cm = inch / 2.54],
    [mm = cm * 0.1]; [reportlab.lib.pagesizes]: [A4 = (210*mm, 297*mm)]. *)
Definition inch : spec_float := of_int 72.
Definition cm : spec_float := SFdiv prec emax inch (float_of_ratio 254 100).
Definition mm : spec_float := SFmul prec emax cm (float_of_ratio 1 10).
Definition A4 : spec_float * spec_float :=
  Eval vm_compute in (SFmul prec emax (of_int 210) mm, SFmul prec emax (of_int 297) mm).

(** A keyword argument of a style or of a table-style command. *)
Inductive attr : Type :=
| AStr (s : string)
| ANum (n : number)
| AColor (c : color)
| AColors (cs : list color)
| AAlign (a : alignment).

(** A paragraph style: an entry of [getSampleStyleSheet()], or a
    [ParagraphStyle(name, parent=..., **kw)]. *)
Inductive style : Type :=
| SampleStyle (name : string)
| ParagraphStyle (name : string) (parent : style) (kw : list (string * attr)).

(** A table cell: a [Paragraph(text, style)] or a plain string. *)
Inductive cell : Type :=
| Paragraph (text : string) (st : style)
| Str (s : string).

Abbreviation row := (list cell).

(** A [TableStyle] command [(name, (c0, r0), (c1, r1), *args)]. *)
Record style_cmd : Type := StyleCmd {
  cmd_name : string;
  cmd_from : Z * Z;
  cmd_to : Z * Z;
  cmd_args : list attr
}.

Record Table : Type := mkTable {
  data : list row;
  colWidths : list number;
  table_style : list style_cmd
}.

Record SimpleDocTemplate : Type := mkDoc {
  doc_filename : string;
  pagesize : spec_float * spec_float;
  rightMargin : number;
  leftMargin : number;
  topMargin : number;
  bottomMargin : number
}.

(** ** The canvas *)

Inductive path_op : Type :=
| moveTo (x y : number)
| lineTo (x y : number)
| close.

Inductive canvas_op : Type :=
| saveState
| restoreState
| setFillColor (c : color)
| setStrokeColor (c : color)
| setLineWidth (n : number)
| setFont (name : string) (size : number)
| beginPath
| drawPath (p : list path_op) (fill stroke : Z)
| drawString (x y : number) (text : string)
| drawRightString (x y : number) (text : string)
| drawCentredString (x y : number) (text : string)
| line (x1 y1 x2 y2 : number)
| circle (x y r : number) (fill stroke : Z).

(** A canvas is the sequence of operations performed on it, oldest
    first. *)
Definition canvas : Type := list canvas_op.

(** A drawing routine runs on a canvas; what it drew before raising
    stays drawn. *)
Definition draw (A : Type) : Type := canvas -> outcome A * canvas.

Definition dret {A} (a : A) : draw A := fun c => (Normal a, c).

Definition dbind {A B} (m : draw A) (f : A -> draw B) : draw B :=
  fun c =>
    match m c with
    | (Normal a, c') => f a c'
    | (Raised e, c') => (Raised e, c')
    end.

Definition emit (op : canvas_op) : draw unit := fun c => (Normal tt, (c ++ [op])%list).

Definition eval {A} (o : outcome A) : draw A := fun c => (o, c).

(** What the Python runtime gives a hook when it runs: the text of
    [datetime.datetime.now().strftime("%d %B, %Y")], and [str.upper]. *)
Record runtime : Type := Runtime {
  now_text : string;
  upper : string -> string
}.

(** A page hook [f(canvas, doc)], as [onFirstPage] and [onLaterPages]
    take it, run in a runtime. *)
Definition hook : Type := runtime -> canvas -> SimpleDocTemplate -> outcome unit * canvas.

(** ** What a canvas shows

    The graphics state the text operations read: fill colour and font,
    saved and restored as a stack. *)
Record gstate : Type := GState {
  fill : color;
  font : string * number
}.

Inductive anchor : Type := Left | Right | Centre.

Record shown_text : Type := Shown {
  sh_anchor : anchor;
  sh_x : number;
  sh_y : number;
  sh_text : string;
  sh_fill : color;
  sh_font : string * number
}.

Fixpoint texts_from (g : gstate) (saved : list gstate) (ops : list canvas_op)
  : list shown_text :=
  match ops with
  | [] => []
  | op :: rest =>
      match op with
      | saveState => texts_from g (g :: saved) rest
      | restoreState =>
          match saved with
          | g' :: saved' => texts_from g' saved' rest
          | [] => texts_from g [] rest
          end
      | setFillColor c => texts_from (GState c (font g)) saved rest
      | setFont n s => texts_from (GState (fill g) (n, s)) saved rest
      | drawString x y t =>
          Shown Left x y t (fill g) (font g) :: texts_from g saved rest
      | drawRightString x y t =>
          Shown Right x y t (fill g) (font g) :: texts_from g saved rest
      | drawCentredString x y t =>
          Shown Centre x y t (fill g) (font g) :: texts_from g saved rest
      | _ => texts_from g saved rest
      end
  end.

End Reportlab.

(* ================================================================== *)
(** * Calls to the outside world                                        *)
(* ================================================================== *)

Module Sys.
Import Py Reportlab.

(** The callable a caller passes as [callback]. *)
Record callable : Type := Callable { callable_name : string }.

(** The calls the service makes, with the type of what they return. *)
Inductive call : Type -> Type :=
| os_path_expanduser (p : string) : call string
| os_path_join (a b : string) : call string
| os_path_exists (p : string) : call bool
| os_makedirs (p : string) : call unit
| new_SimpleDocTemplate (d : SimpleDocTemplate) : call unit
| getSampleStyleSheet : call unit
| new_ParagraphStyle (st : style) : call unit
| new_Paragraph (text : string) (st : style) : call unit
| new_Table (data : list row) (colWidths : list number) : call unit
| Table_setStyle (data : list row) (cmds : list style_cmd) : call unit
| doc_build (d : SimpleDocTemplate) (elements : list Table)
            (onFirstPage onLaterPages : hook) : call unit
| invoke (f : callable) (result : bool * string) : call unit.

(** A program: returns, raises, or makes a call and goes on with what
    the call gave (a value or an exception). *)
Inductive io (A : Type) : Type :=
| Ret (a : A)
| Raise (e : exn)
| Vis {R : Type} (c : call R) (k : outcome R -> io A).
Arguments Ret {A} a.
Arguments Raise {A} e.
Arguments Vis {A R} c k.

Fixpoint bind {A B} (m : io A) (f : A -> io B) : io B :=
  match m with
  | Ret a => f a
  | Raise e => Raise e
  | Vis c k => Vis c (fun r => bind (k r) f)
  end.

(** [try: m except Exception as e: h e] *)
Fixpoint try_except {A} (m : io A) (h : exn -> io A) : io A :=
  match m with
  | Ret a => Ret a
  | Raise e => h e
  | Vis c k => Vis c (fun r => try_except (k r) h)
  end.

Definition of_outcome {A} (o : outcome A) : io A :=
  match o with
  | Normal a => Ret a
  | Raised e => Raise e
  end.

(** Make a call; an exception it raises propagates. *)
Definition perform {R} (c : call R) : io R := Vis c of_outcome.

(** ** Runs *)

(** The outside world answers each call from its state [W]. *)
Definition handler (W : Type) : Type := forall R, call R -> W -> outcome R * W.

Inductive event : Type :=
| Event {R : Type} (c : call R) (r : outcome R).

(** A run gives the outcome, the final state of the world and the calls
    made with their answers, in order. *)
Fixpoint run {W A} (h : handler W) (m : io A) (w : W) : outcome A * W * list event :=
  match m with
  | Ret a => (Normal a, w, [])
  | Raise e => (Raised e, w, [])
  | Vis c k =>
      let '(r, w1) := h _ c w in
      let '(o, w2, tr) := run h (k r) w1 in
      (o, w2, Event c r :: tr)
  end.

Definition result_of {W A} (x : outcome A * W * list event) : outcome A := fst (fst x).
Definition world_of {W A} (x : outcome A * W * list event) : W := snd (fst x).
Definition trace_of {W A} (x : outcome A * W * list event) : list event := snd x.

(** ** Kinds of calls *)

Definition is_path_call {R} (c : call R) : bool :=
  match c with
  | os_path_expanduser _ | os_path_join _ _ | os_path_exists _ | os_makedirs _ => true
  | _ => false
  end.

Definition on_call (P : forall R, call R -> bool) (ev : event) : bool :=
  match ev with
  | Event c _ => P _ c
  end.

(** The tables handed to [Table(...)] in a run. *)
Definition table_of (ev : event) : option (list row) :=
  match ev with
  | Event (new_Table d _) _ => Some d
  | _ => None
  end.

Fixpoint tables_built (tr : list event) : list (list row) :=
  match tr with
  | [] => []
  | ev :: rest =>
      match table_of ev with
      | Some d => d :: tables_built rest
      | None => tables_built rest
      end
  end.

(** The hooks handed to [doc.build] in a run. *)
Definition hooks_of (ev : event) : option (hook * hook) :=
  match ev with
  | Event (doc_build _ _ f l) _ => Some (f, l)
  | _ => None
  end.

Fixpoint hooks_registered (tr : list event) : list (hook * hook) :=
  match tr with
  | [] => []
  | ev :: rest =>
      match hooks_of ev with
      | Some p => p :: hooks_registered rest
      | None => hooks_registered rest
      end
  end.

End Sys.

(* ================================================================== *)
(** * The service                                                       *)
(* ================================================================== *)

Module PDFReportGenerator.
Import Py Reportlab Sys.

Declare Scope io_scope.
Delimit Scope io_scope with io.
Notation "x <- m ;; k" := (bind m (fun x => k))
  (at level 61, m at next level, right associativity) : io_scope.
Notation "m ;;; k" := (bind m (fun _ => k))
  (at level 61, right associativity) : io_scope.

Declare Scope draw_scope.
Delimit Scope draw_scope with draw.
Notation "x <- m ;; k" := (dbind m (fun x => k))
  (at level 61, m at next level, right associativity) : draw_scope.
Notation "m ;;; k" := (dbind m (fun _ => k))
  (at level 61, right associativity) : draw_scope.

(** Modelled from the spec: the class of the elements of [subjects]
    ([SubjectData]), which pdf_service.py only reads.  The spec's
    SubjectRecord is {name: string, average: numeric, coeff: numeric,
    weighted_score: numeric}. *)
Record SubjectData : Type := mkSubject {
  name : string;
  average : number;
  coeff : number;
  weighted_score : number
}.

(** A [GenerationResult]: [(success, message)]. *)
Abbreviation result := (bool * string)%type.

Definition android_path : string := "/storage/emulated/0/Download".

(** ** Intelligent path selection (the first [try] block) *)

Definition path_selection (filename : string) : io string :=
  (home <- perform (os_path_expanduser "~") ;;
   desktop_path <- perform (os_path_join home "Downloads") ;;
   android <- perform (os_path_exists android_path) ;;
   save_dir <- (if android : bool then Ret android_path
                else
                  let save_dir := desktop_path in
                  present <- perform (os_path_exists save_dir) ;;
                  (if negb present then perform (os_makedirs save_dir) else Ret tt) ;;;
                  Ret save_dir) ;;
   perform (os_path_join save_dir filename))%io.

(** ** The page decoration *)

Definition draw_background (total_avg : spec_float) (classification : string)
    (C_PRIMARY C_SECONDARY : color) : hook :=
  fun rt c doc =>
  (emit saveState ;;;
   let '(w, h) := A4 in
   (* Header Background *)
   emit (setFillColor C_PRIMARY) ;;;
   emit beginPath ;;;
   let path := [moveTo (PyInt 0) (PyFloat h)] in
   let path := (path ++ [lineTo (PyFloat w) (PyFloat h)])%list in
   y <- eval (py_sub (PyFloat h) (PyInt 140)) ;;
   let path := (path ++ [lineTo (PyFloat w) y])%list in
   y <- eval (py_sub (PyFloat h) (PyInt 100)) ;;
   let path := (path ++ [lineTo (PyInt 0) y])%list in
   let path := (path ++ [close])%list in
   emit (drawPath path 1 0) ;;;
   (* Header Text *)
   emit (setFillColor white) ;;;
   emit (setFont "Helvetica-Bold" (PyInt 24)) ;;;
   x <- eval (py_sub (PyFloat w) (PyInt 40)) ;;
   y <- eval (py_sub (PyFloat h) (PyInt 50)) ;;
   emit (drawRightString x y "ACADEMIC REPORT") ;;;
   emit (setFont "Helvetica" (PyInt 10)) ;;;
   emit (setFillColor (HexColor "#dcdde1")) ;;;
   x <- eval (py_sub (PyFloat w) (PyInt 40)) ;;
   y <- eval (py_sub (PyFloat h) (PyInt 65)) ;;
   emit (drawRightString x y (now_text rt)) ;;;
   (* Footer *)
   emit (setStrokeColor C_SECONDARY) ;;;
   emit (setLineWidth (PyInt 2)) ;;;
   x <- eval (py_sub (PyFloat w) (PyInt 50)) ;;
   emit (line (PyInt 50) (PyInt 50) x (PyInt 50)) ;;;
   emit (setFont "Helvetica-Bold" (PyInt 8)) ;;;
   emit (setFillColor gray) ;;;
   emit (drawString (PyInt 50) (PyInt 35) "ACADEMIC ANALYTICS SUITE") ;;;
   x <- eval (py_sub (PyFloat w) (PyInt 50)) ;;
   emit (drawRightString x (PyInt 35) "Powered by Karim Dev") ;;;
   (* Grade Badge *)
   cx <- eval (float_truediv w (PyInt 2)) ;;
   cy <- eval (py_sub (PyFloat h) (PyInt 160)) ;;
   emit (setStrokeColor C_SECONDARY) ;;;
   emit (setLineWidth (PyInt 3)) ;;;
   emit (setFillColor white) ;;;
   emit (circle cx cy (PyInt 60) 1 1) ;;;
   emit (setFillColor C_PRIMARY) ;;;
   emit (circle cx cy (PyInt 52) 1 0) ;;;
   emit (setFillColor white) ;;;
   emit (setFont "Helvetica-Bold" (PyInt 26)) ;;;
   y <- eval (py_add cy (PyInt 6)) ;;
   text <- eval (format_2f (PyFloat total_avg)) ;;
   emit (drawCentredString cx y text) ;;;
   emit (setFont "Helvetica" (PyInt 10)) ;;;
   y <- eval (py_sub cy (PyInt 15)) ;;
   emit (drawCentredString cx y "/ 20") ;;;
   emit (setFillColor C_SECONDARY) ;;;
   emit (setFont "Helvetica-Bold" (PyInt 14)) ;;;
   y <- eval (py_sub cy (PyInt 85)) ;;
   emit (drawCentredString cx y ("PERFORMANCE: " ++ upper rt classification)) ;;;
   emit restoreState)%draw c.

(** ** The table (inside the second [try] block) *)

(** [Paragraph(text, style)] *)
Definition Paragraph_ (text : string) (st : style) : io cell :=
  (perform (new_Paragraph text st) ;;; Ret (Paragraph text st))%io.

(** The [for sub in subjects] loop, with the variables it updates. *)
Fixpoint subjects_loop (styles_Normal : style) (subjects : list SubjectData)
    (data : list row) (total_c total_w : number)
  : io (list row * number * number) :=
  match subjects with
  | [] => Ret (data, total_c, total_w)
  | sub :: rest =>
      (p <- Paragraph_ ("<b>" ++ name sub ++ "</b>") styles_Normal ;;
       a <- of_outcome (format_2f (average sub)) ;;
       c <- of_outcome (py_str (coeff sub)) ;;
       w <- of_outcome (format_2f (weighted_score sub)) ;;
       let row := [p; Str a; Str c; Str w] in
       let data := (data ++ [row])%list in
       total_c <- of_outcome (py_add total_c (coeff sub)) ;;
       total_w <- of_outcome (py_add total_w (weighted_score sub)) ;;
       subjects_loop styles_Normal rest data total_c total_w)%io
  end.

Definition table_commands (C_PRIMARY C_SECONDARY : color) : list style_cmd :=
  [ StyleCmd "VALIGN" (0, 0) (-1, -1) [AStr "MIDDLE"];
    StyleCmd "ALIGN" (1, 0) (-1, -1) [AStr "CENTER"];
    StyleCmd "ALIGN" (0, 0) (0, -1) [AStr "LEFT"];
    StyleCmd "LINEBELOW" (0, 0) (-1, 0) [ANum (PyInt 2); AColor C_PRIMARY];
    StyleCmd "BOTTOMPADDING" (0, 0) (-1, 0) [ANum (PyInt 12)];
    StyleCmd "ROWBACKGROUNDS" (0, 1) (-1, -2) [AColors [white; HexColor "#fdfbff"]];
    StyleCmd "LINEABOVE" (1, -1) (-1, -1) [ANum (PyInt 1); AColor C_SECONDARY];
    StyleCmd "FONTNAME" (0, -1) (-1, -1) [AStr "Helvetica-Bold"];
    StyleCmd "TEXTCOLOR" (0, -1) (-1, -1) [AColor C_PRIMARY] ].

(** The body of the second [try] block. *)
Definition build_document (subjects : list SubjectData) (total_avg : spec_float)
    (classification : string) (full_path : string)
    (C_PRIMARY C_SECONDARY : color) (draw_background : hook) : io result :=
  (let doc := mkDoc full_path A4 (PyInt 40) (PyInt 40) (PyInt 280) (PyInt 60) in
   perform (new_SimpleDocTemplate doc) ;;;
   let elements := @nil Table in
   perform getSampleStyleSheet ;;;
   let styles_Normal := SampleStyle "Normal" in
   (* Table *)
   let style_h := ParagraphStyle "Header" styles_Normal
                    [("fontName", AStr "Helvetica-Bold"); ("fontSize", ANum (PyInt 10));
                     ("textColor", AColor C_PRIMARY); ("alignment", AAlign TA_CENTER)] in
   perform (new_ParagraphStyle style_h) ;;;
   let style_hl := ParagraphStyle "HeaderL" style_h [("alignment", AAlign TA_LEFT)] in
   perform (new_ParagraphStyle style_hl) ;;;
   h1 <- Paragraph_ "SUBJECT" style_hl ;;
   h2 <- Paragraph_ "AVG" style_h ;;
   h3 <- Paragraph_ "COEFF" style_h ;;
   h4 <- Paragraph_ "WEIGHTED" style_h ;;
   let headers := [h1; h2; h3; h4] in
   let data := [headers] in
   let total_c := PyInt 0 in
   let total_w := PyInt 0 in
   after <- subjects_loop styles_Normal subjects data total_c total_w ;;
   let '(data, total_c, total_w) := after in
   c <- of_outcome (py_str total_c) ;;
   w <- of_outcome (format_2f total_w) ;;
   let data := (data ++ [[Str ""; Str "TOTALS"; Str c; Str w]])%list in
   let widths := [PyInt 230; PyInt 100; PyInt 80; PyInt 100] in
   perform (new_Table data widths) ;;;
   let cmds := table_commands C_PRIMARY C_SECONDARY in
   perform (Table_setStyle data cmds) ;;;
   let t := mkTable data widths cmds in
   let elements := (elements ++ [t])%list in
   perform (doc_build doc elements draw_background draw_background) ;;;
   Ret (true, "Saved to: " ++ full_path))%io.

(** ** [generate]: synchronous PDF generation *)

Definition generate (subjects : list SubjectData) (total_avg : spec_float)
    (classification : string) (filename : string) : io result :=
  (r <- try_except
         (full_path <- path_selection filename ;; Ret (inr full_path))
         (fun e => Ret (inl (false, "Path Error: " ++ exn_str e))) ;;
   match r with
   | inl returned => Ret returned
   | inr full_path =>
       (* Design Palette *)
       let C_PRIMARY := HexColor "#2e004f" in
       let C_SECONDARY := HexColor "#6c5ce7" in
       let draw_background :=
         draw_background total_avg classification C_PRIMARY C_SECONDARY in
       try_except
         (build_document subjects total_avg classification full_path
            C_PRIMARY C_SECONDARY draw_background)
         (fun e => Ret (false, exn_str e))
   end)%io.

(** ** [generate_async] *)

(** The function the thread runs. *)
Definition task (subjects : list SubjectData) (total_avg : spec_float)
    (classification : string) (filename : string) (callback : option callable)
  : io unit :=
  (result <- generate subjects total_avg classification filename ;;
   match callback with
   | Some f => perform (invoke f result)
   | None => Ret tt
   end)%io.

(** A [threading.Thread(target=..., daemon=...)]. *)
Record Thread : Type := mkThread { target : io unit; daemon : bool }.

(** [generate_async] starts one thread and returns; its value here is
    the list of threads it started. *)
Definition generate_async (subjects : list SubjectData) (total_avg : spec_float)
    (classification : string) (filename : string) (callback : option callable)
  : list Thread :=
  [ mkThread (task subjects total_avg classification filename callback) true ].

End PDFReportGenerator.

(* ================================================================== *)
(** * A reference environment                                           *)
(* ================================================================== *)

(** A small POSIX-like world to run the service in: a set of existing
    directories, a layout engine that decorates every page it lays out
    and then stores the document, and at most one injected fault. *)
Module Nominal.
Import Py Reportlab Sys.

(** The [str.upper] of the reference runtime, for ASCII text: the
    letters a-z go to A-Z, any other character is kept. *)
Definition upper_char (c : ascii) : ascii :=
  let n := nat_of_ascii c in
  if (Nat.leb 97 n && Nat.leb n 122)%bool then ascii_of_nat (n - 32) else c.

Fixpoint ascii_upper (s : string) : string :=
  match s with
  | EmptyString => EmptyString
  | String c r => String (upper_char c) (ascii_upper r)
  end.

Record world : Type := World {
  home : string;
  dirs : list string;
  documents : list (string * list canvas);
  today : string;
  later_pages : nat;
  fault : option (nat * exn);
  called_back : list (callable * (bool * string))
}.

Definition with_fault (f : option (nat * exn)) (w : world) : world :=
  World (home w) (dirs w) (documents w) (today w) (later_pages w) f (called_back w).

Definition ends_with_slash (a : string) : bool :=
  match String.get (String.length a - 1) a with
  | Some c => Ascii.eqb c "/"
  | None => false
  end.

(** [posixpath.join(a, b)] *)
Definition posix_join (a b : string) : string :=
  if String.prefix "/" b then b
  else if (String.eqb a "" || ends_with_slash a)%bool then a ++ b
  else a ++ "/" ++ b.

Definition exists_ (w : world) (p : string) : bool := existsb (String.eqb p) (dirs w).

(** The directories above [p]: its prefixes that stop before a ["/"]. *)
Fixpoint parents_from (seen rest : string) : list string :=
  match rest with
  | EmptyString => []
  | String c r =>
      let here := if (Ascii.eqb c "/" && negb (String.eqb seen ""))%bool then [seen] else [] in
      (here ++ parents_from (seen ++ String c "") r)%list
  end.

Definition makedirs (w : world) (p : string) : outcome unit * world :=
  if exists_ w p
  then (Raised (Exception "FileExistsError" ("[Errno 17] File exists: '" ++ p ++ "'")), w)
  else
    let missing := filter (fun d => negb (exists_ w d)) (parents_from "" p) in
    (Normal tt,
     World (home w) (dirs w ++ missing ++ [p])%list (documents w) (today w)
           (later_pages w) (fault w) (called_back w)).

Definition runtime_of (w : world) : runtime := Runtime (today w) ascii_upper.

(** Decorate [n] further pages with [f]. *)
Fixpoint decorate_later (n : nat) (f : hook) (now : runtime) (d : SimpleDocTemplate)
  : outcome (list canvas) :=
  match n with
  | O => Normal []
  | S n' =>
      match f now [] d with
      | (Normal _, c) => obind (decorate_later n' f now d) (fun cs => Normal (c :: cs))
      | (Raised e, _) => Raised e
      end
  end.

(** [doc.build]: decorate the first page, then the later ones, then
    write the file. *)
Definition build (w : world) (d : SimpleDocTemplate) (first later : hook)
  : outcome unit * world :=
  match first (runtime_of w) [] d with
  | (Raised e, _) => (Raised e, w)
  | (Normal _, c) =>
      match decorate_later (later_pages w) later (runtime_of w) d with
      | Raised e => (Raised e, w)
      | Normal cs =>
          (Normal tt,
           World (home w) (dirs w) ((doc_filename d, c :: cs) :: documents w) (today w)
                 (later_pages w) (fault w) (called_back w))
      end
  end.

Definition answer {R} (c : call R) (w : world) : outcome R * world :=
  match c in call R return outcome R * world with
  | os_path_expanduser p => (Normal (if String.eqb p "~" then home w else p), w)
  | os_path_join a b => (Normal (posix_join a b), w)
  | os_path_exists p => (Normal (exists_ w p), w)
  | os_makedirs p => makedirs w p
  | new_SimpleDocTemplate _ => (Normal tt, w)
  | getSampleStyleSheet => (Normal tt, w)
  | new_ParagraphStyle _ => (Normal tt, w)
  | new_Paragraph _ _ => (Normal tt, w)
  | new_Table _ _ => (Normal tt, w)
  | Table_setStyle _ _ => (Normal tt, w)
  | doc_build d _ first later => build w d first later
  | invoke f r =>
      (Normal tt,
       World (home w) (dirs w) (documents w) (today w) (later_pages w) (fault w)
             (called_back w ++ [(f, r)])%list)
  end.

(** The world's answers; the injected fault [(n, e)] makes the call
    number [n] (from 0) raise [e]. *)
Definition respond : handler world :=
  fun R c w =>
    match fault w with
    | Some (O, e) => (Raised e, with_fault None w)
    | Some (S n, e) => answer c (with_fault (Some (n, e)) w)
    | None => answer c w
    end.

(** A desktop: no mobile download directory, no [Downloads] yet. *)
Definition desktop : world :=
  World "/home/karim" ["/"; "/home"; "/home/karim"] [] "04 November, 2026" 0 None [].

(** A phone: the mobile download directory exists. *)
Definition phone : world :=
  World "/data" ["/"; "/storage/emulated/0/Download"] [] "04 November, 2026" 1 None [].

End Nominal.

(* ================================================================== *)
(** * What the claims speak of                                          *)
(* ================================================================== *)

Module Props.
Import Py Reportlab Sys PDFReportGenerator.

(** The sum of [xs] accumulated in order from [int] 0, as [+=] does. *)
Definition sum_from (start : number) (xs : list number) : outcome number :=
  fold_left (fun acc x => obind acc (fun a => py_add a x)) xs (Normal start).

Definition sum_in_order (xs : list number) : outcome number := sum_from (PyInt 0) xs.

(** The arithmetic sum of integers. *)
Definition Zsum (zs : list Z) : Z := fold_right Z.add 0 zs.

Definition C_PRIMARY : color := HexColor "#2e004f".
Definition C_SECONDARY : color := HexColor "#6c5ce7".

Definition style_h : style :=
  ParagraphStyle "Header" (SampleStyle "Normal")
    [("fontName", AStr "Helvetica-Bold"); ("fontSize", ANum (PyInt 10));
     ("textColor", AColor C_PRIMARY); ("alignment", AAlign TA_CENTER)].

Definition style_hl : style := ParagraphStyle "HeaderL" style_h [("alignment", AAlign TA_LEFT)].

Definition header_row : row :=
  [Paragraph "SUBJECT" style_hl; Paragraph "AVG" style_h;
   Paragraph "COEFF" style_h; Paragraph "WEIGHTED" style_h].

Definition totals_row (coefficient weighted : string) : row :=
  [Str ""; Str "TOTALS"; Str coefficient; Str weighted].

(** The row displayed for a subject from cells [a], [c], [w]. *)
Definition subject_row (sub : SubjectData) (a c w : string) : row :=
  [Paragraph ("<b>" ++ name sub ++ "</b>") (SampleStyle "Normal"); Str a; Str c; Str w].

(** [r] is the row of [sub]: average and weighted score through [.2f],
    coefficient through [str()]. *)
Definition displays (sub : SubjectData) (r : row) : Prop :=
  exists a c w,
    format_2f (average sub) = Normal a /\
    py_str (coeff sub) = Normal c /\
    format_2f (weighted_score sub) = Normal w /\
    r = subject_row sub a c w.

(** [d] is the table of [subjects]: header, one row each, totals. *)
Definition table_for (subjects : list SubjectData) (d : list row) : Prop :=
  exists rows total_c total_w coefficient weighted,
    d = (header_row :: rows ++ [totals_row coefficient weighted])%list /\
    Forall2 displays subjects rows /\
    sum_in_order (map coeff subjects) = Normal total_c /\
    sum_in_order (map weighted_score subjects) = Normal total_w /\
    py_str total_c = Normal coefficient /\
    format_2f total_w = Normal weighted.

(** One or more digits, a point, two digits. *)
Definition point_2 (s : string) : bool :=
  match s with
  | String c (String a (String b EmptyString)) =>
      Ascii.eqb c "." && is_digit a && is_digit b
  | _ => false
  end.

Fixpoint digits_point_2 (s : string) : bool :=
  match s with
  | EmptyString => false
  | String c r => is_digit c && (point_2 r || digits_point_2 r)
  end.

(** A numeral with exactly two decimals, with an optional sign. *)
Definition two_decimals (s : string) : bool :=
  match s with
  | EmptyString => false
  | String c r => if Ascii.eqb c "-" then digits_point_2 r else digits_point_2 s
  end.

Definition nonempty (s : string) : bool :=
  match s with
  | EmptyString => false
  | _ => true
  end.

(** An integer numeral: optional sign, then digits only. *)
Definition integer_numeral (s : string) : bool :=
  match s with
  | EmptyString => false
  | String c r =>
      if Ascii.eqb c "-" then nonempty r && all_digits r else all_digits s
  end.

Definition is_finite (x : number) : bool :=
  match x with
  | PyInt _ => true
  | PyFloat (S754_zero _) | PyFloat (S754_finite _ _ _) => true
  | PyFloat _ => false
  end.

(** The callbacks invoked in a run, with their argument. *)
Fixpoint invocations (tr : list event) : list (callable * result) :=
  match tr with
  | [] => []
  | Event (invoke f r) _ :: rest => (f, r) :: invocations rest
  | _ :: rest => invocations rest
  end.

(** The hook [generate] defines. *)
Definition the_hook (total_avg : spec_float) (classification : string) : hook :=
  draw_background total_avg classification C_PRIMARY C_SECONDARY.

(** The badge: centre and the heights of its three texts. *)
Definition cx : number := Eval vm_compute in PyFloat (SFdiv prec emax (fst A4) (of_int 2)).
Definition cy : number := Eval vm_compute in PyFloat (SFsub prec emax (snd A4) (of_int 160)).

Definition above (a b : number) : bool :=
  match a, b with
  | PyFloat f, PyFloat g => SFltb g f
  | _, _ => false
  end.

Definition minus (a : number) (z : Z) : number :=
  match py_sub a (PyInt z) with
  | Normal v => v
  | Raised _ => a
  end.

(** The calls a successful path selection makes, with their answers,
    when it returns [p]: the mobile directory exists; or it does not
    and [Downloads] exists; or neither does and [Downloads] is made. *)
Definition probes (home desktop : string) : list event :=
  [Event (os_path_expanduser "~") (Normal home);
   Event (os_path_join home "Downloads") (Normal desktop)].

Inductive selection (filename p : string) : list event -> Prop :=
| mobile home desktop :
    selection filename p
      (probes home desktop ++
       [Event (os_path_exists android_path) (Normal true);
        Event (os_path_join android_path filename) (Normal p)])
| desktop_present home desktop :
    selection filename p
      (probes home desktop ++
       [Event (os_path_exists android_path) (Normal false);
        Event (os_path_exists desktop) (Normal true);
        Event (os_path_join desktop filename) (Normal p)])
| desktop_created home desktop :
    selection filename p
      (probes home desktop ++
       [Event (os_path_exists android_path) (Normal false);
        Event (os_path_exists desktop) (Normal false);
        Event (os_makedirs desktop) (Normal tt);
        Event (os_path_join desktop filename) (Normal p)]).

(** The rows of a table between its header and its totals. *)
Definition body_rows (d : list row) : list row := removelast (tl d).

(** The reading of the display of a subject in which every average and
    weighted score has two decimals and every coefficient is an integer
    numeral. *)
Definition shows_integer_coefficient (sub : SubjectData) (r : row) : Prop :=
  exists a c w,
    r = subject_row sub a c w /\
    two_decimals a = true /\ integer_numeral c = true /\ two_decimals w = true.

(** The display of a subject as [generate] makes it: average and
    weighted score through [.2f], which gives two decimals to a finite
    value; coefficient through [str()], which gives an integer numeral
    to an [int]. *)
Definition row_shows (sub : SubjectData) (r : row) : Prop :=
  exists a c w,
    r = subject_row sub a c w /\
    format_2f (average sub) = Normal a /\
    py_str (coeff sub) = Normal c /\
    format_2f (weighted_score sub) = Normal w /\
    (is_finite (average sub) = true -> two_decimals a = true) /\
    (is_finite (weighted_score sub) = true -> two_decimals w = true) /\
    (forall z, coeff sub = PyInt z -> integer_numeral c = true).

(** ** The badge *)

Definition plus (a : number) (z : Z) : number :=
  match py_add a (PyInt z) with
  | Normal v => v
  | Raised _ => a
  end.

(** The three texts of the badge: the average over ["/ 20"] inside the
    circles, the label, upper-cased by the runtime, under them. *)
Definition badge_texts (rt : runtime) (total_avg : spec_float) (classification : string)
  : list shown_text :=
  [Shown Centre cx (plus cy 6) (float_format_2f total_avg) white
         ("Helvetica-Bold", PyInt 26);
   Shown Centre cx (minus cy 15) "/ 20" white ("Helvetica", PyInt 10);
   Shown Centre cx (minus cy 85) ("PERFORMANCE: " ++ upper rt classification)
         C_SECONDARY ("Helvetica-Bold", PyInt 14)].

Definition centred (t : shown_text) : bool :=
  match sh_anchor t with
  | Centre => true
  | _ => false
  end.

(** A drawing routine that only adds to the canvas it is given. *)
Definition appends {A} (m : draw A) : Prop :=
  forall c, m c = (fst (m []), (c ++ snd (m []))%list).

(** The totals row of [d] shows the sums over [subjects]. *)
Definition totals_shown (subjects : list SubjectData) (d : list row) : Prop :=
  exists total_c total_w coefficient weighted,
    sum_in_order (map coeff subjects) = Normal total_c /\
    sum_in_order (map weighted_score subjects) = Normal total_w /\
    py_str total_c = Normal coefficient /\
    format_2f total_w = Normal weighted /\
    last d [] = totals_row coefficient weighted.

(** The table of a report without subjects. *)
Definition empty_table : list row := [header_row; totals_row "0" "0.00"].

(** The reading of a failure message by its prefix: it starts with
    ["Path Error: "] exactly when path selection failed. *)
Definition prefix_tells_stage {W} (h : handler W) (w : W)
    (subjects : list SubjectData) (total_avg : spec_float)
    (classification filename : string) : Prop :=
  forall msg,
    result_of (run h (generate subjects total_avg classification filename) w)
      = Normal (false, msg) ->
    (String.prefix "Path Error: " msg = true <->
     exists e, result_of (run h (path_selection filename) w) = Raised e).

End Props.

(** Inputs for the examples: the report of the spec's example, and
    variations. *)
Module Sample.
Import Py Reportlab Sys PDFReportGenerator.

Definition flt (n d : Z) : number := PyFloat (float_of_ratio n d).

Definition math : SubjectData := mkSubject "Math" (flt 15 1) (PyInt 4) (flt 60 1).
Definition physics : SubjectData := mkSubject "Physics" (flt 25 2) (PyInt 3) (flt 75 2).
Definition subjects : list SubjectData := [math; physics].
Definition total_avg : spec_float := float_of_ratio 138 10.

(** A subject whose coefficient is the float 2.5. *)
Definition art : SubjectData := mkSubject "Art" (flt 15 1) (flt 5 2) (flt 75 2).

(** A subject whose average and weighted score overflowed to infinity. *)
Definition unbounded : SubjectData :=
  mkSubject "Lab" (PyFloat (S754_infinity false)) (PyInt 1) (PyFloat (S754_infinity false)).

Definition good_report : io result := generate subjects total_avg "good" "good_report.pdf".
Definition art_report : io result := generate [art] total_avg "good" "art.pdf".
Definition unbounded_report : io result := generate [unbounded] total_avg "good" "lab.pdf".
Definition empty_report : io result := generate [] total_avg "good" "empty.pdf".

(** The desktop with the call number [n] failing with [e]. *)
Definition failing (n : nat) (e : exn) : Nominal.world :=
  Nominal.with_fault (Some (n, e)) Nominal.desktop.

Definition denied : exn :=
  Exception "PermissionError" "[Errno 13] Permission denied: '/home/karim/Downloads'".

(** An engine failure whose text starts like a path error. *)
Definition misleading : exn := Exception "RuntimeError" "Path Error: layout failed".

End Sample.

(* ================================================================== *)
(** * The course of a run                                               *)
(* ================================================================== *)

(** The vocabulary for what a run did call, in which order, and how it
    was answered. *)
Module Script.
Import Py Reportlab Sys PDFReportGenerator Props.

Definition answered_normally (ev : event) : bool :=
  match ev with
  | Event _ (Normal _) => true
  | Event _ (Raised _) => false
  end.

(** Every call of the trace was answered with a value. *)
Definition quiet (tr : list event) : bool := forallb answered_normally tr.

(** The directories [os.makedirs] was called on. *)
Fixpoint made (tr : list event) : list string :=
  match tr with
  | [] => []
  | Event (os_makedirs p) _ :: rest => p :: made rest
  | _ :: rest => made rest
  end.

(** The documents and stories [doc.build] was called on. *)
Fixpoint builds (tr : list event) : list (SimpleDocTemplate * list Table) :=
  match tr with
  | [] => []
  | Event (doc_build d els _ _) _ :: rest => (d, els) :: builds rest
  | _ :: rest => builds rest
  end.

(** [doc.build] was called and returned. *)
Fixpoint built_ok (tr : list event) : bool :=
  match tr with
  | [] => false
  | Event (doc_build _ _ _ _) (Normal _) :: _ => true
  | _ :: rest => built_ok rest
  end.

(** The exception the last call of the trace raised, if it did. *)
Fixpoint last_raised (tr : list event) : option exn :=
  match tr with
  | [] => None
  | Event _ r :: rest =>
      match r with
      | Normal _ => last_raised rest
      | Raised e =>
          match rest with
          | [] => Some e
          | _ => last_raised rest
          end
      end
  end.

(** The document template of a report saved at [full_path]. *)
Definition document (full_path : string) : SimpleDocTemplate :=
  mkDoc full_path A4 (PyInt 40) (PyInt 40) (PyInt 280) (PyInt 60).

Definition widths : list number := [PyInt 230; PyInt 100; PyInt 80; PyInt 100].

(** The styled table of rows [d]. *)
Definition the_table (d : list row) : Table :=
  mkTable d widths (table_commands C_PRIMARY C_SECONDARY).

(** The calls that open the second [try] block, all answered. *)
Definition opening (full_path : string) : list event :=
  [Event (new_SimpleDocTemplate (document full_path)) (Normal tt);
   Event getSampleStyleSheet (Normal tt);
   Event (new_ParagraphStyle style_h) (Normal tt);
   Event (new_ParagraphStyle style_hl) (Normal tt);
   Event (new_Paragraph "SUBJECT" style_hl) (Normal tt);
   Event (new_Paragraph "AVG" style_h) (Normal tt);
   Event (new_Paragraph "COEFF" style_h) (Normal tt);
   Event (new_Paragraph "WEIGHTED" style_h) (Normal tt)].

(** One [Paragraph] per subject, in input order, all answered. *)
Definition names (subjects : list SubjectData) : list event :=
  map (fun sub => Event (new_Paragraph ("<b>" ++ name sub ++ "</b>") (SampleStyle "Normal"))
                        (Normal tt))
      subjects.

(** The calls that close it: the table, its style, and [doc.build],
    answered with [ans]. *)
Definition closing (d : list row) (full_path : string) (f : hook) (ans : outcome unit)
  : list event :=
  [Event (new_Table d widths) (Normal tt);
   Event (Table_setStyle d (table_commands C_PRIMARY C_SECONDARY)) (Normal tt);
   Event (doc_build (document full_path) [the_table d] f f) ans].

(** What [generate] returns once [doc.build] has answered [ans]. *)
Definition verdict (full_path : string) (ans : outcome unit) : bool * string :=
  match ans with
  | Normal _ => (true, "Saved to: " ++ full_path)
  | Raised e => (false, exn_str e)
  end.

(** [.2f] formats [x] (it raises on an [int] too large for a float). *)
Definition formats (x : number) : bool :=
  match format_2f x with
  | Normal _ => true
  | Raised _ => false
  end.

(** [str()] prints [x] (it raises on an [int] of too many digits). *)
Definition prints (x : number) : bool :=
  match py_str x with
  | Normal _ => true
  | Raised _ => false
  end.

(** The three cells of the row of [sub] can be computed. *)
Definition row_ok (sub : SubjectData) : bool :=
  (formats (average sub) && prints (coeff sub) && formats (weighted_score sub))%bool.

(** The totals accumulated from [total_c] and [total_w] over [subjects]
    can be computed and displayed. *)
Definition totals_ok (total_c total_w : number) (subjects : list SubjectData) : bool :=
  (match sum_from total_c (map coeff subjects) with
   | Normal c => prints c
   | Raised _ => false
   end &&
   match sum_from total_w (map weighted_score subjects) with
   | Normal w => formats w
   | Raised _ => false
   end)%bool.

(** The loop from [total_c] and [total_w] over [subjects], and the
    totals row after it, raise nothing of their own. *)
Definition rest_ok (total_c total_w : number) (subjects : list SubjectData) : bool :=
  (forallb row_ok subjects && totals_ok total_c total_w subjects)%bool.

(** Data every cell of whose table can be computed: each row, both
    running totals, and the display of the totals. *)
Definition data_ok (subjects : list SubjectData) : bool :=
  rest_ok (PyInt 0) (PyInt 0) subjects.

(** A subject whose average or weighted score [.2f] cannot format
    (an [int] too large for a float). *)
Definition unformattable (sub : SubjectData) : bool :=
  (negb (formats (average sub)) || negb (formats (weighted_score sub)))%bool.

(** The texts of the banner and the footer, with the date text of the
    runtime. *)
Definition frame_texts (rt : runtime) : list shown_text :=
  [Shown Right (minus (PyFloat (fst A4)) 40) (minus (PyFloat (snd A4)) 50)
         "ACADEMIC REPORT" white ("Helvetica-Bold", PyInt 24);
   Shown Right (minus (PyFloat (fst A4)) 40) (minus (PyFloat (snd A4)) 65)
         (now_text rt) (HexColor "#dcdde1") ("Helvetica", PyInt 10);
   Shown Left (PyInt 50) (PyInt 35) "ACADEMIC ANALYTICS SUITE" gray
         ("Helvetica-Bold", PyInt 8);
   Shown Right (minus (PyFloat (fst A4)) 50) (PyInt 35) "Powered by Karim Dev" gray
         ("Helvetica-Bold", PyInt 8)].

(** The outline of the banner: the top of the page, slanted below. *)
Definition banner : list path_op :=
  [moveTo (PyInt 0) (PyFloat (snd A4));
   lineTo (PyFloat (fst A4)) (PyFloat (snd A4));
   lineTo (PyFloat (fst A4)) (minus (PyFloat (snd A4)) 140);
   lineTo (PyInt 0) (minus (PyFloat (snd A4)) 100);
   close].

End Script.

(** A subject whose average is an [int] too large for a float. *)
Module Huge.
Import Py Sys PDFReportGenerator.

Definition olympiad : SubjectData :=
  mkSubject "Olympiad" (PyInt (2 ^ 1024)) (PyInt 1) (Sample.flt 20 1).

Definition report : io result :=
  generate [Sample.math; olympiad] Sample.total_avg "good" "huge.pdf".

(** A subject whose coefficient is an [int] of 4301 digits, and one
    whose coefficient has 4300. *)
Definition census : SubjectData :=
  mkSubject "Census" (Sample.flt 15 1) (PyInt (10 ^ 4300)) (Sample.flt 20 1).

Definition survey : SubjectData :=
  mkSubject "Survey" (Sample.flt 15 1) (PyInt (10 ^ 4300 - 1)) (Sample.flt 20 1).

Definition census_report : io result :=
  generate [census] Sample.total_avg "good" "census.pdf".

End Huge.

(* ================================================================== *)
(** * Runs of programs                                                  *)
(* ================================================================== *)

Import Py Reportlab Sys PDFReportGenerator Props Script.

Section Runs.
Context {W : Type} (h : handler W).

Lemma run_bind {A B} (m : io A) (f : A -> io B) (w : W) :
  run h (bind m f) w =
  match run h m w with
  | (Normal a, w1, tr1) =>
      let '(o, w2, tr2) := run h (f a) w1 in (o, w2, (tr1 ++ tr2)%list)
  | (Raised e, w1, tr1) => (Raised e, w1, tr1)
  end.
Proof.
  revert w. induction m as [a | e | R c k IH]; intros w; simpl.
  - destruct (run h (f a) w) as [[o w2] tr2]. reflexivity.
  - reflexivity.
  - destruct (h R c w) as [r w1]. rewrite IH.
    destruct (run h (k r) w1) as [[[a | e] w2] tr1]; simpl.
    + destruct (run h (f a) w2) as [[o w3] tr2]. reflexivity.
    + reflexivity.
Qed.

Lemma run_try_except {A} (m : io A) (handle : exn -> io A) (w : W) :
  run h (try_except m handle) w =
  match run h m w with
  | (Normal a, w1, tr1) => (Normal a, w1, tr1)
  | (Raised e, w1, tr1) =>
      let '(o, w2, tr2) := run h (handle e) w1 in (o, w2, (tr1 ++ tr2)%list)
  end.
Proof.
  revert w. induction m as [a | e | R c k IH]; intros w; simpl.
  - reflexivity.
  - destruct (run h (handle e) w) as [[o w2] tr2]. reflexivity.
  - destruct (h R c w) as [r w1]. rewrite IH.
    destruct (run h (k r) w1) as [[[a | e] w2] tr1]; simpl.
    + reflexivity.
    + destruct (run h (handle e) w2) as [[o w3] tr2]. reflexivity.
Qed.

Lemma run_perform {R} (c : call R) (w : W) :
  run h (perform c) w = (fst (h R c w), snd (h R c w), [Event c (fst (h R c w))]).
Proof.
  unfold perform. simpl. destruct (h R c w) as [[a | e] w1]; reflexivity.
Qed.

Lemma run_of_outcome {A} (o : outcome A) (w : W) :
  run h (of_outcome o) w = (o, w, []).
Proof. destruct o; reflexivity. Qed.

End Runs.

Section Generate.
Context {W : Type} (h : handler W).

(** [generate] is its two [try] blocks in sequence. *)
Lemma run_generate subjects total_avg classification filename (w : W) :
  run h (generate subjects total_avg classification filename) w =
  match run h (path_selection filename) w with
  | (Raised e, w1, tr1) => (Normal (false, "Path Error: " ++ exn_str e), w1, tr1)
  | (Normal full_path, w1, tr1) =>
      match run h (build_document subjects total_avg classification full_path
                     C_PRIMARY C_SECONDARY (the_hook total_avg classification)) w1 with
      | (Normal r, w2, tr2) => (Normal r, w2, (tr1 ++ tr2)%list)
      | (Raised e, w2, tr2) => (Normal (false, exn_str e), w2, (tr1 ++ tr2)%list)
      end
  end.
Proof.
  unfold generate. rewrite (run_bind h), (run_try_except h), (run_bind h).
  destruct (run h (path_selection filename) w) as [[[p | e] w1] tr1];
    cbn [run app]; cbv beta iota.
  - rewrite app_nil_r, (run_try_except h).
    fold C_PRIMARY C_SECONDARY. fold (the_hook total_avg classification).
    destruct (run h (build_document _ _ _ _ _ _ _) w1) as [[[r | e] w2] tr2];
      cbn [run app]; cbv beta iota.
    + reflexivity.
    + rewrite app_nil_r. reflexivity.
  - rewrite !app_nil_r. reflexivity.
Qed.

End Generate.

(* ================================================================== *)
(** * The parts of a trace                                              *)
(* ================================================================== *)

Lemma invocations_app tr1 tr2 :
  invocations (tr1 ++ tr2) = (invocations tr1 ++ invocations tr2)%list.
Proof.
  induction tr1 as [| [R c r] tr1 IH]; simpl; [reflexivity |].
  destruct c; simpl; rewrite ?IH; reflexivity.
Qed.

Lemma tables_built_app tr1 tr2 :
  tables_built (tr1 ++ tr2) = (tables_built tr1 ++ tables_built tr2)%list.
Proof.
  induction tr1 as [| [R c r] tr1 IH]; simpl; [reflexivity |].
  destruct c; simpl; rewrite ?IH; reflexivity.
Qed.

Lemma hooks_registered_app tr1 tr2 :
  hooks_registered (tr1 ++ tr2) = (hooks_registered tr1 ++ hooks_registered tr2)%list.
Proof.
  induction tr1 as [| [R c r] tr1 IH]; simpl; [reflexivity |].
  destruct c; simpl; rewrite ?IH; reflexivity.
Qed.

(** Path calls build no table, register no hook, invoke no callback. *)
Lemma path_calls_only tr :
  forallb (on_call (@is_path_call)) tr = true ->
  invocations tr = [] /\ tables_built tr = [] /\ hooks_registered tr = [].
Proof.
  induction tr as [| [R c r] tr IH]; simpl; [auto |].
  intros H. apply andb_true_iff in H. destruct H as [Hc Htr].
  destruct c; simpl in *; try discriminate; auto.
Qed.

(* ================================================================== *)
(** * Path selection                                                    *)
(* ================================================================== *)

Section PathSelection.
Context {W : Type} (h : handler W).

Ltac answer :=
  match goal with
  | |- context [h ?R ?c ?w] => destruct (h R c w) as [[? | ?] ?]
  end; cbn [run bind perform of_outcome].

Lemma path_selection_calls filename (w : W) :
  forallb (on_call (@is_path_call)) (trace_of (run h (path_selection filename) w)) = true.
Proof.
  unfold path_selection. cbn [run bind perform of_outcome].
  answer; [| reflexivity].
  answer; [| reflexivity].
  answer; [| reflexivity].
  destruct a1; cbn [run bind perform of_outcome].
  - answer; reflexivity.
  - answer; [| reflexivity].
    destruct a1; cbn [negb run bind perform of_outcome].
    + answer; reflexivity.
    + answer; [| reflexivity]. answer; reflexivity.
Qed.

(** C4. A path selection that returns [p] made one of three sequences
    of calls ([selection]): the mobile download directory exists and
    [p] is its join with the file name; or it does not exist, the home
    [Downloads] directory does, and [p] is the join of that one; or
    neither exists, [os.makedirs] is called on [Downloads], and [p] is
    again its join with the file name. *)
Theorem path_selection_choice filename (w : W) p :
  result_of (run h (path_selection filename) w) = Normal p ->
  selection filename p (trace_of (run h (path_selection filename) w)).
Proof.
  unfold path_selection. cbn [run bind perform of_outcome].
  answer; [| discriminate].
  answer; [| discriminate].
  answer; [| discriminate].
  destruct a1; cbn [run bind perform of_outcome].
  - answer; [| discriminate].
    unfold result_of, trace_of; simpl. intros [= ->]. apply (mobile _ _ a a0).
  - answer; [| discriminate].
    destruct a1; cbn [negb run bind perform of_outcome].
    + answer; [| discriminate].
      unfold result_of, trace_of; simpl. intros [= ->]. apply (desktop_present _ _ a a0).
    + answer; [| discriminate]. answer; [| discriminate].
      unfold result_of, trace_of; simpl. intros [= ->]. destruct a1.
      apply (desktop_created _ _ a a0).
Qed.

End PathSelection.

(* ================================================================== *)
(** * The table                                                         *)
(* ================================================================== *)

Lemma sum_from_cons start x xs :
  sum_from start (x :: xs) =
  match py_add start x with
  | Normal s => sum_from s xs
  | Raised e => Raised e
  end.
Proof.
  unfold sum_from. simpl. destruct (py_add start x) as [s | e]; [reflexivity |].
  induction xs as [| y ys IH]; simpl; [reflexivity | exact IH].
Qed.

(** On integers the running sum is the arithmetic sum. *)
Lemma sum_from_ints z zs :
  sum_from (PyInt z) (map PyInt zs) = Normal (PyInt (z + Zsum zs)).
Proof.
  revert z. induction zs as [| y ys IH]; intros z.
  - simpl. unfold sum_from. simpl. f_equal. f_equal. lia.
  - cbn [map]. rewrite sum_from_cons. cbn [py_add]. rewrite IH.
    f_equal. f_equal. cbn [Zsum fold_right]. fold (Zsum ys). lia.
Qed.

Section Rendering.
Context {W : Type} (h : handler W).

Ltac answer :=
  match goal with
  | |- context [h ?R ?c ?w] => destruct (h R c w) as [[? | ?] ?]
  end; cbn [run bind perform of_outcome Paragraph_].

Ltac stopped := cbn [invocations tables_built table_of hooks_registered hooks_of];
                repeat split; auto.

(** The loop appends one displayed row per subject and adds up both
    totals in order; it builds no table and registers no hook. *)
Lemma run_subjects_loop subjects : forall (w : W) data total_c total_w,
  match run h (subjects_loop (SampleStyle "Normal") subjects data total_c total_w) w with
  | (o, _, tr) =>
      invocations tr = [] /\ tables_built tr = [] /\ hooks_registered tr = [] /\
      match o with
      | Normal (data', total_c', total_w') =>
          exists rows, data' = (data ++ rows)%list /\
                       Forall2 displays subjects rows /\
                       sum_from total_c (map coeff subjects) = Normal total_c' /\
                       sum_from total_w (map weighted_score subjects) = Normal total_w'
      | Raised _ => True
      end
  end.
Proof.
  induction subjects as [| sub rest IH]; intros w data total_c total_w.
  - cbn [subjects_loop run]. stopped.
    exists []. rewrite app_nil_r. repeat split; constructor.
  - cbn [subjects_loop map]. cbn [run bind perform of_outcome Paragraph_].
    answer; [| stopped].
    destruct (format_2f (average sub)) as [av | e] eqn:Ea;
      cbn [run bind of_outcome]; [| stopped].
    destruct (py_str (coeff sub)) as [cs | e] eqn:Ec;
      cbn [run bind of_outcome]; [| stopped].
    destruct (format_2f (weighted_score sub)) as [ws | e] eqn:Ew;
      cbn [run bind of_outcome]; [| stopped].
    rewrite !sum_from_cons.
    destruct (py_add total_c (coeff sub)) as [tc | e];
      cbn [run bind of_outcome]; [| stopped].
    destruct (py_add total_w (weighted_score sub)) as [tw | e];
      cbn [run bind of_outcome]; [| stopped].
    specialize (IH w0 (data ++ [subject_row sub av cs ws])%list tc tw).
    unfold subject_row in IH.
    destruct (run h (subjects_loop _ rest _ tc tw) w0) as [[o w1] tr].
    cbn [invocations tables_built table_of hooks_registered hooks_of].
    destruct IH as (Hi & Ht & Hh & Ho). repeat split; auto.
    destruct o as [[[data' tc'] tw'] | e]; [| exact I].
    destruct Ho as (rows & -> & Hrows & Hc & Hw).
    exists (subject_row sub av cs ws :: rows).
    rewrite <- app_assoc. repeat split; auto.
    constructor; [| exact Hrows]. exists av, cs, ws. auto.
Qed.

(** What a run of the second [try] block leaves in the trace. *)
Lemma run_build_document subjects total_avg classification full_path hook (w : W) :
  match run h (build_document subjects total_avg classification full_path
                 C_PRIMARY C_SECONDARY hook) w with
  | (o, _, tr) =>
      invocations tr = [] /\
      (tables_built tr = [] \/ exists d, tables_built tr = [d] /\ table_for subjects d) /\
      (hooks_registered tr = [] \/ hooks_registered tr = [(hook, hook)]) /\
      match o with
      | Normal r =>
          r = (true, "Saved to: " ++ full_path) /\
          (exists d, tables_built tr = [d]) /\
          hooks_registered tr = [(hook, hook)]
      | Raised _ => True
      end
  end.
Proof.
  unfold build_document. cbn [run bind perform of_outcome Paragraph_].
  do 8 (answer; [| stopped]).
  rewrite (run_bind h).
  pose proof (run_subjects_loop subjects w7 [header_row] (PyInt 0) (PyInt 0)) as L.
  unfold header_row, style_hl, style_h in L.
  match goal with
  | |- context [run h (subjects_loop ?s ?l ?d ?c ?t) ?w] =>
      destruct (run h (subjects_loop s l d c t) w) as [[o w8] tr]
  end.
  destruct L as (Hi & Ht & Hh & Ho).
  destruct o as [[[data total_c] total_w] | e]; cbv beta iota;
    [| cbn [invocations tables_built table_of hooks_registered hooks_of];
       rewrite Hi, Ht, Hh; repeat split; auto].
  destruct Ho as (rows & -> & Hrows & Hc & Hw).
  destruct (py_str total_c) as [coefficient | e] eqn:Es;
    cbn [run bind perform of_outcome app];
    [| cbn [invocations tables_built table_of hooks_registered hooks_of];
       rewrite app_nil_r, Hi, Ht, Hh; repeat split; auto].
  destruct (format_2f total_w) as [weighted | e] eqn:Ef;
    cbn [run bind perform of_outcome app];
    [| cbn [invocations tables_built table_of hooks_registered hooks_of];
       rewrite app_nil_r, Hi, Ht, Hh; repeat split; auto].
  assert (Hd : table_for subjects
                 (header_row :: rows ++ [totals_row coefficient weighted])%list).
  { exists rows, total_c, total_w, coefficient, weighted. repeat split; auto. }
  unfold header_row, style_hl, style_h, totals_row in Hd.
  answer.
  2:{ cbn [invocations tables_built table_of hooks_registered hooks_of].
      rewrite invocations_app, tables_built_app, hooks_registered_app, Hi, Ht, Hh.
      cbn [invocations tables_built table_of hooks_registered hooks_of app].
      repeat split; eauto. }
  answer.
  2:{ cbn [invocations tables_built table_of hooks_registered hooks_of].
      rewrite invocations_app, tables_built_app, hooks_registered_app, Hi, Ht, Hh.
      cbn [invocations tables_built table_of hooks_registered hooks_of app].
      repeat split; eauto. }
  answer;
    cbn [invocations tables_built table_of hooks_registered hooks_of];
    rewrite invocations_app, tables_built_app, hooks_registered_app, Hi, Ht, Hh;
    cbn [invocations tables_built table_of hooks_registered hooks_of app];
    repeat split; eauto.
Qed.

End Rendering.

(* ================================================================== *)
(** * Runs of [generate]                                                *)
(* ================================================================== *)

(** What any run of [generate] returns and leaves in its trace. *)
Lemma generate_summary {W} (h : handler W) subjects total_avg classification filename
    (w : W) :
  match run h (generate subjects total_avg classification filename) w with
  | (o, _, tr) =>
      invocations tr = [] /\
      (tables_built tr = [] \/ exists d, tables_built tr = [d] /\ table_for subjects d) /\
      (hooks_registered tr = [] \/
       hooks_registered tr = [(the_hook total_avg classification,
                               the_hook total_avg classification)]) /\
      exists ok msg,
        o = Normal (ok, msg) /\
        (if ok then (exists d, tables_built tr = [d]) /\
                    hooks_registered tr = [(the_hook total_avg classification,
                                            the_hook total_avg classification)]
         else True)
  end.
Proof.
  rewrite run_generate.
  pose proof (path_selection_calls h filename w) as Hp.
  destruct (run h (path_selection filename) w) as [[[p | e] w1] tr1];
    cbn [trace_of snd] in Hp.
  - apply path_calls_only in Hp. destruct Hp as (Hi & Ht & Hh).
    pose proof (run_build_document h subjects total_avg classification p
                  (the_hook total_avg classification) w1) as Hb.
    destruct (run h (build_document _ _ _ _ _ _ _) w1) as [[o w2] tr2].
    destruct Hb as (Hi2 & Ht2 & Hh2 & Ho).
    assert (I0 : invocations (tr1 ++ tr2) = []).
    { rewrite invocations_app, Hi, Hi2. reflexivity. }
    assert (T0 : tables_built (tr1 ++ tr2) = tables_built tr2).
    { rewrite tables_built_app, Ht. reflexivity. }
    assert (H0 : hooks_registered (tr1 ++ tr2) = hooks_registered tr2).
    { rewrite hooks_registered_app, Hh. reflexivity. }
    destruct o as [r | e]; rewrite I0, T0, H0; repeat split; auto.
    + destruct Ho as (-> & Hd & Hk). exists true, ("Saved to: " ++ p). auto.
    + exists false, (exn_str e). auto.
  - apply path_calls_only in Hp. destruct Hp as (Hi & Ht & Hh).
    rewrite Hi, Ht, Hh. repeat split; auto.
    exists false, ("Path Error: " ++ exn_str e). auto.
Qed.

Lemma prefix_app (p s : string) : String.prefix p (p ++ s) = true.
Proof.
  induction p as [| c p IH]; simpl.
  - destruct s; reflexivity.
  - destruct (ascii_dec c c) as [_ | N]; [exact IH | contradiction].
Qed.

(* ================================================================== *)
(** * Properties of the service                                         *)
(* ================================================================== *)

(** When every coefficient is an [int], the total shown is the numeral
    of their arithmetic sum. *)
Lemma total_coefficient_of_ints subjects zs :
  map coeff subjects = map PyInt zs ->
  sum_in_order (map coeff subjects) = Normal (PyInt (Zsum zs)).
Proof.
  intros ->. unfold sum_in_order. rewrite sum_from_ints. reflexivity.
Qed.

(** C2. [generate] never raises: whatever the calls answer or raise,
    every run returns a pair [(ok, msg)]; an exception in the path
    selection gives
    [(false, "Path Error: " + str(e))], an exception anywhere in the
    second [try] block (table construction, layout, file write) gives
    [(false, str(e))]. *)
Theorem generate_never_raises {W} (h : handler W) (w : W)
    subjects total_avg classification filename :
  exists ok msg,
    result_of (run h (generate subjects total_avg classification filename) w)
      = Normal (ok, msg) /\
    match run h (path_selection filename) w with
    | (Raised e, _, _) => ok = false /\ msg = "Path Error: " ++ exn_str e
    | (Normal full_path, w1, _) =>
        match result_of (run h (build_document subjects total_avg classification
                                  full_path C_PRIMARY C_SECONDARY
                                  (the_hook total_avg classification)) w1) with
        | Raised e => ok = false /\ msg = exn_str e
        | Normal _ => ok = true
        end
    end.
Proof.
  rewrite run_generate.
  destruct (run h (path_selection filename) w) as [[[p | e] w1] tr1].
  - pose proof (run_build_document h subjects total_avg classification p
                  (the_hook total_avg classification) w1) as Hb.
    destruct (run h (build_document _ _ _ _ _ _ _) w1) as [[[r | e] w2] tr2];
      cbn [result_of fst].
    + destruct Hb as (_ & _ & _ & -> & _). eauto.
    + eauto.
  - cbn [result_of fst]. eauto.
Qed.

(** C3. If the path selection raises [e], [generate] returns
    [(false, "Path Error: " + str(e))] at once: its run is the run of
    the path selection, so it makes path calls only (no engine call, no
    [doc.build]). *)
Theorem path_error_returns_immediately {W} (h : handler W) (w : W)
    subjects total_avg classification filename e :
  result_of (run h (path_selection filename) w) = Raised e ->
  let x := run h (generate subjects total_avg classification filename) w in
  result_of x = Normal (false, "Path Error: " ++ exn_str e) /\
  world_of x = world_of (run h (path_selection filename) w) /\
  trace_of x = trace_of (run h (path_selection filename) w) /\
  forallb (on_call (@is_path_call)) (trace_of x) = true /\
  tables_built (trace_of x) = [] /\ hooks_registered (trace_of x) = [].
Proof.
  intros He. cbv zeta. rewrite run_generate.
  pose proof (path_selection_calls h filename w) as Hp.
  destruct (run h (path_selection filename) w) as [[[p | e'] w1] tr1];
    cbn [result_of world_of trace_of fst snd] in *; [discriminate |].
  injection He as ->.
  destruct (path_calls_only _ Hp) as (_ & Ht & Hh). repeat split; auto.
Qed.

(** C5. The task of [generate_async] invokes the callback exactly once,
    with the result [generate] returned in that run, when a callback
    was given, and never otherwise; [generate_async] starts that task
    on one daemon thread. *)
Theorem task_invokes_callback_once {W} (h : handler W) (w : W)
    subjects total_avg classification filename callback :
  (exists res,
     result_of (run h (generate subjects total_avg classification filename) w)
       = Normal res /\
     invocations
       (trace_of (run h (task subjects total_avg classification filename callback) w))
     = match callback with
       | Some f => [(f, res)]
       | None => []
       end) /\
  generate_async subjects total_avg classification filename callback
  = [mkThread (task subjects total_avg classification filename callback) true].
Proof.
  split; [| reflexivity].
  unfold task. rewrite (run_bind h).
  pose proof (generate_summary h subjects total_avg classification filename w) as G.
  destruct (run h (generate _ _ _ _) w) as [[o w1] tr].
  destruct G as (Hi & _ & _ & ok & msg & -> & _).
  exists (ok, msg). split; [reflexivity |].
  destruct callback as [f |].
  - rewrite run_perform. cbn [trace_of snd].
    rewrite invocations_app, Hi. reflexivity.
  - cbn [run trace_of snd]. rewrite app_nil_r. exact Hi.
Qed.

(** C8. When the path selection returns [full_path] and the second
    [try] block then runs to its end without an exception, [generate]
    returns [(true, "Saved to: " + full_path)]. *)
Theorem success_message {W} (h : handler W) (w : W)
    subjects total_avg classification filename full_path r :
  result_of (run h (path_selection filename) w) = Normal full_path ->
  result_of (run h (build_document subjects total_avg classification full_path
                      C_PRIMARY C_SECONDARY (the_hook total_avg classification))
               (world_of (run h (path_selection filename) w)))
    = Normal r ->
  result_of (run h (generate subjects total_avg classification filename) w)
    = Normal (true, "Saved to: " ++ full_path).
Proof.
  rewrite run_generate.
  destruct (run h (path_selection filename) w) as [[o w1] tr1];
    cbn [result_of world_of fst snd].
  intros -> Hb.
  pose proof (run_build_document h subjects total_avg classification full_path
                (the_hook total_avg classification) w1) as B.
  destruct (run h (build_document _ _ _ _ _ _ _) w1) as [[[r' | e] w2] tr2];
    cbn [result_of fst] in *; [| discriminate].
  destruct B as (_ & _ & _ & -> & _). reflexivity.
Qed.

(** C10 (amended). A failure of [generate] comes from one of the two
    stages: the path selection raised [e] and the message is
    ["Path Error: " + str(e)], which starts with ["Path Error: "]; or
    the path selection returned and the second [try] block raised [e],
    and the message is exactly [str(e)]. *)
Theorem failure_message_by_stage {W} (h : handler W) (w : W)
    subjects total_avg classification filename msg :
  result_of (run h (generate subjects total_avg classification filename) w)
    = Normal (false, msg) ->
  (exists e,
     result_of (run h (path_selection filename) w) = Raised e /\
     msg = "Path Error: " ++ exn_str e /\
     String.prefix "Path Error: " msg = true) \/
  (exists full_path e,
     result_of (run h (path_selection filename) w) = Normal full_path /\
     result_of (run h (build_document subjects total_avg classification full_path
                         C_PRIMARY C_SECONDARY (the_hook total_avg classification))
                  (world_of (run h (path_selection filename) w))) = Raised e /\
     msg = exn_str e).
Proof.
  rewrite run_generate.
  destruct (run h (path_selection filename) w) as [[[p | e] w1] tr1];
    cbn [result_of world_of fst snd].
  - pose proof (run_build_document h subjects total_avg classification p
                  (the_hook total_avg classification) w1) as B.
    destruct (run h (build_document _ _ _ _ _ _ _) w1) as [[[r | e] w2] tr2] eqn:Eb;
      cbn [result_of fst].
    + destruct B as (_ & _ & _ & -> & _). discriminate.
    + intros [= <-]. right. exists p, e. rewrite Eb. repeat split.
  - intros [= <-]. left. exists e. repeat split.
    exact (prefix_app "Path Error: " (exn_str e)).
Qed.

(* ================================================================== *)
(** * Numerals                                                          *)
(* ================================================================== *)

Lemma is_digit_digit d : 0 <= d < 10 -> is_digit (digit d) = true.
Proof.
  intros H.
  assert (E : d = 0 \/ d = 1 \/ d = 2 \/ d = 3 \/ d = 4 \/
              d = 5 \/ d = 6 \/ d = 7 \/ d = 8 \/ d = 9) by lia.
  repeat destruct E as [-> | E]; try reflexivity. subst. reflexivity.
Qed.

Lemma digit_not_minus c : is_digit c = true -> Ascii.eqb c "-" = false.
Proof.
  intros H. destruct (Ascii.eqb_spec c "-") as [-> | _]; [discriminate | reflexivity].
Qed.

Lemma all_digits_uint d : all_digits (NilEmpty.string_of_uint d) = true.
Proof. induction d; simpl; auto. Qed.

Lemma numeral_uint d :
  exists c r, NilZero.string_of_uint d = String c r /\
              is_digit c = true /\ all_digits r = true.
Proof.
  destruct d; simpl; eexists _, _; repeat split; auto using all_digits_uint.
Qed.

Lemma dec_nonneg z :
  0 <= z -> exists c r, dec z = String c r /\ is_digit c = true /\ all_digits r = true.
Proof.
  intros H. unfold dec. destruct z as [| p | p]; [| | lia].
  - exists "0"%char, "". repeat split.
  - apply numeral_uint.
Qed.

Lemma integer_numeral_dec z : integer_numeral (dec z) = true.
Proof.
  destruct z as [| p | p].
  - reflexivity.
  - destruct (dec_nonneg (Zpos p)) as (c & r & -> & Hc & Hr); [lia |].
    unfold integer_numeral. rewrite (digit_not_minus c Hc). simpl.
    rewrite Hc, Hr. reflexivity.
  - unfold dec, Z.to_int, NilZero.string_of_int.
    destruct (numeral_uint (Pos.to_uint p)) as (c & r & -> & Hc & Hr).
    simpl. rewrite Hc, Hr. reflexivity.
Qed.

Lemma digits_point_2_app p a b :
  all_digits p = true -> nonempty p = true ->
  is_digit a = true -> is_digit b = true ->
  digits_point_2 (p ++ String "." (String a (String b ""))) = true.
Proof.
  intros Hp Hn Ha Hb. induction p as [| c p IH]; [discriminate |].
  simpl in Hp. apply andb_true_iff in Hp. destruct Hp as [Hc Hp].
  cbn [append digits_point_2]. rewrite Hc. cbn [andb].
  destruct p as [| c' p'].
  - cbn [append point_2]. rewrite Ha, Hb. reflexivity.
  - rewrite IH; auto. apply orb_true_r.
Qed.

Lemma fixed2_digits n :
  0 <= n ->
  digits_point_2 (fixed2 n) = true /\ two_decimals (fixed2 n) = true.
Proof.
  intros H. unfold fixed2.
  destruct (dec_nonneg (n / 100)) as (c & r & E & Hc & Hr).
  { apply Z.div_pos; lia. }
  assert (D : digits_point_2
                (dec (n / 100) ++
                 String "." (String (digit (n / 10 mod 10)) (String (digit (n mod 10)) "")))
              = true).
  { apply digits_point_2_app.
    - rewrite E. simpl. rewrite Hc, Hr. reflexivity.
    - rewrite E. reflexivity.
    - apply is_digit_digit. apply Z.mod_pos_bound. lia.
    - apply is_digit_digit. apply Z.mod_pos_bound. lia. }
  split; [exact D |].
  change ("." ++ String (digit (n / 10 mod 10)) (String (digit (n mod 10)) ""))
    with (String "." (String (digit (n / 10 mod 10)) (String (digit (n mod 10)) ""))).
  revert D. rewrite E. cbn [append]. intros D.
  unfold two_decimals. rewrite (digit_not_minus c Hc). exact D.
Qed.

Lemma hundredths_nonneg m e : 0 <= hundredths m e.
Proof.
  unfold hundredths. destruct (0 <=? e) eqn:E.
  - apply Z.leb_le in E. assert (0 < 2 ^ e) by (apply Z.pow_pos_nonneg; lia). nia.
  - apply Z.leb_gt in E. unfold round_half_even.
    assert (P : 0 < 2 ^ (- e)) by (apply Z.pow_pos_nonneg; lia).
    assert (Q : 0 <= Z.pos m * 100 / 2 ^ (- e)) by (apply Z.div_pos; lia).
    destruct (2 * ((Z.pos m * 100) mod 2 ^ (- e)) ?= 2 ^ (- e)); try lia.
    destruct (Z.even _); lia.
Qed.

Lemma float_format_two_decimals f :
  is_finite (PyFloat f) = true -> two_decimals (float_format_2f f) = true.
Proof.
  destruct f as [s | s | | s m e]; try discriminate; intros _.
  - destruct s; reflexivity.
  - destruct (fixed2_digits (hundredths m e) (hundredths_nonneg m e)) as [D T].
    destruct s; cbn [float_format_2f sign_str append].
    + exact D.
    + exact T.
Qed.

(** ** Conversion of an [int] gives a finite float or raises *)

Lemma shr_1_nonneg mrs : 0 <= shr_m mrs -> 0 <= shr_m (shr_1 mrs).
Proof.
  destruct mrs as [m r s]. destruct m as [| p | p]; simpl; intros H; try lia.
  destruct p; simpl; lia.
Qed.

Lemma iter_shr_1_nonneg p : forall mrs,
  0 <= shr_m mrs -> 0 <= shr_m (iter_pos shr_1 p mrs).
Proof.
  induction p as [p IH | p IH |]; intros mrs H; simpl.
  - apply IH, IH, shr_1_nonneg, H.
  - apply IH, IH, H.
  - apply shr_1_nonneg, H.
Qed.

Lemma shr_fexp_nonneg m e l :
  0 <= m -> 0 <= shr_m (fst (shr_fexp prec emax m e l)).
Proof.
  intros H. unfold shr_fexp, shr.
  assert (R : 0 <= shr_m (shr_record_of_loc m l)).
  { destruct l as [| []]; exact H. }
  destruct (fexp prec emax (Zdigits2 m + e) - e) as [| p | p]; simpl; auto.
  apply iter_shr_1_nonneg, R.
Qed.

Lemma round_nearest_even_nonneg m l : 0 <= m -> 0 <= round_nearest_even m l.
Proof.
  intros H. unfold round_nearest_even. destruct l as [| []]; try lia.
  destruct (Z.even m); lia.
Qed.

Lemma binary_round_aux_not_nan s mx ex l :
  0 <= mx -> binary_round_aux prec emax s mx ex l <> S754_nan.
Proof.
  intros H. unfold binary_round_aux.
  pose proof (shr_fexp_nonneg mx ex l H) as H1.
  destruct (shr_fexp prec emax mx ex l) as [mrs' e']. cbn [fst] in H1.
  pose proof (shr_fexp_nonneg _ e' loc_Exact
                (round_nearest_even_nonneg _ (loc_of_shr_record mrs') H1)) as H2.
  destruct (shr_fexp prec emax _ e' loc_Exact) as [mrs'' e'']. cbn [fst] in H2.
  destruct (shr_m mrs'') as [| p | p]; [discriminate | | lia].
  destruct (e'' <=? emax - prec); discriminate.
Qed.

Lemma int_to_float_finite z f :
  int_to_float z = Normal f -> is_finite (PyFloat f) = true.
Proof.
  unfold int_to_float.
  assert (N : binary_normalize prec emax z 0 false <> S754_nan).
  { unfold binary_normalize, binary_round.
    destruct z as [| p | p]; [discriminate | |];
      destruct (shl_align _ _ _) as [mz ez];
      apply binary_round_aux_not_nan; lia. }
  destruct (binary_normalize prec emax z 0 false) as [s | s | | s m e];
    try discriminate; try contradiction; intros [= <-]; reflexivity.
Qed.

Lemma format_2f_two_decimals x s :
  format_2f x = Normal s -> is_finite x = true -> two_decimals s = true.
Proof.
  destruct x as [z | f]; cbn [format_2f].
  - destruct (int_to_float z) as [f | e] eqn:E; cbn [obind]; [| discriminate].
    intros [= <-] _. apply float_format_two_decimals, (int_to_float_finite z f E).
  - intros [= <-] H. apply float_format_two_decimals, H.
Qed.

(** [str()] of an [int] is its decimal numeral, when it has at most
    [max_str_digits] digits. *)
Lemma py_str_int z s :
  py_str (PyInt z) = Normal s ->
  s = dec z /\ Z.of_nat (String.length (dec (Z.abs z))) <= max_str_digits.
Proof.
  cbn [py_str].
  destruct (Z.of_nat (String.length (dec (Z.abs z))) <=? max_str_digits) eqn:E;
    [| discriminate].
  intros [= <-]. split; [reflexivity | apply Z.leb_le, E].
Qed.

Lemma displays_row_shows sub r : displays sub r -> row_shows sub r.
Proof.
  intros (a & c & w & Ha & Hc & Hw & ->). exists a, c, w. repeat split; auto.
  - apply format_2f_two_decimals, Ha.
  - apply format_2f_two_decimals, Hw.
  - intros z Hz. rewrite Hz in Hc. apply py_str_int in Hc. destruct Hc as [-> _].
    apply integer_numeral_dec.
Qed.

Lemma body_rows_table rows t : body_rows (header_row :: rows ++ [t])%list = rows.
Proof. unfold body_rows. cbn [tl]. apply removelast_last. Qed.

(* ================================================================== *)
(** * The display of a subject                                          *)
(* ================================================================== *)

(** The table of the report on [Sample.art], whose coefficient is the
    float 2.5. *)
Lemma art_table :
  tables_built (trace_of (run Nominal.respond Sample.art_report Nominal.desktop))
  = [[header_row; subject_row Sample.art "15.00" "2.5" "37.50"; totals_row "2.5" "37.50"]].
Proof. vm_compute. reflexivity. Qed.

(** The table of the report on [Sample.unbounded]. *)
Lemma unbounded_table :
  tables_built (trace_of (run Nominal.respond Sample.unbounded_report Nominal.desktop))
  = [[header_row; subject_row Sample.unbounded "inf" "1" "inf"; totals_row "1" "inf"]].
Proof. vm_compute. reflexivity. Qed.

(** C7, as stated, fails twice: the row of a subject whose coefficient
    is the float 2.5 shows ["2.5"], which is no integer numeral; and the
    row of a subject whose average is infinite shows ["inf"], which has
    no decimals. *)
Lemma subject_display_counterexample :
  ~ Forall (fun d => Forall2 shows_integer_coefficient [Sample.art] (body_rows d))
      (tables_built (trace_of (run Nominal.respond Sample.art_report Nominal.desktop))) /\
  ~ Forall (fun d => Forall2 shows_integer_coefficient [Sample.unbounded] (body_rows d))
      (tables_built (trace_of (run Nominal.respond Sample.unbounded_report Nominal.desktop))).
Proof.
  split.
  - rewrite art_table. intros H.
    inversion H as [| d ds Hd _]; subst. clear H.
    unfold body_rows in Hd. cbn [tl removelast] in Hd.
    inversion Hd as [| sub r subs rs Hr _]; subst. clear Hd.
    destruct Hr as (a & c & w & E & _ & Hc & _).
    unfold subject_row in E. injection E as _ <- _. discriminate Hc.
  - rewrite unbounded_table. intros H.
    inversion H as [| d ds Hd _]; subst. clear H.
    unfold body_rows in Hd. cbn [tl removelast] in Hd.
    inversion Hd as [| sub r subs rs Hr _]; subst. clear Hd.
    destruct Hr as (a & c & w & E & Ha & _).
    unfold subject_row in E. injection E as <- _ _. discriminate Ha.
Qed.

(** C7 (amended). In every table [generate] hands to the engine, the
    rows between header and totals are, in input order, the displays of
    the subjects: name in bold, average and weighted score through
    [.2f] - two decimals for every finite value - and coefficient
    through [str()] - an integer numeral for every [int]; a run that
    reports success has handed over exactly one table. *)
Theorem subject_rows_display {W} (h : handler W) (w : W)
    subjects total_avg classification filename :
  let x := run h (generate subjects total_avg classification filename) w in
  Forall (fun d => Forall2 row_shows subjects (body_rows d)) (tables_built (trace_of x)) /\
  match result_of x with
  | Normal (true, _) => exists d, tables_built (trace_of x) = [d]
  | _ => True
  end.
Proof.
  cbv zeta.
  pose proof (generate_summary h subjects total_avg classification filename w) as G.
  destruct (run h (generate _ _ _ _) w) as [[o w'] tr].
  destruct G as (_ & Ht & _ & ok & msg & -> & Hok).
  cbn [result_of trace_of fst snd]. split.
  - destruct Ht as [-> | (d & -> & rows & tc & tw & cs & ws & -> & Hrows & _)].
    + constructor.
    + constructor; [| constructor].
      rewrite body_rows_table.
      clear - Hrows. induction Hrows; constructor; auto using displays_row_shows.
  - destruct ok; [apply Hok | exact I].
Qed.

(* ================================================================== *)
(** * The page decoration                                               *)
(* ================================================================== *)

Lemma appends_emit op : appends (emit op).
Proof. intros c. reflexivity. Qed.

Lemma appends_eval {A} (o : outcome A) : appends (eval o).
Proof. intros c. unfold eval. cbn [fst snd]. rewrite app_nil_r. reflexivity. Qed.

Lemma appends_dbind {A B} (m : draw A) (f : A -> draw B) :
  appends m -> (forall a, appends (f a)) -> appends (dbind m f).
Proof.
  intros Hm Hf c. unfold dbind. rewrite (Hm c).
  destruct (m []) as [[a | e] s1]; cbn [fst snd].
  - rewrite (Hf a (c ++ s1)%list), (Hf a s1). cbn [fst snd].
    rewrite app_assoc. reflexivity.
  - reflexivity.
Qed.

(** The decoration only adds to the canvas, and never raises. *)
Lemma the_hook_appends total_avg classification rt doc :
  appends (fun c => the_hook total_avg classification rt c doc).
Proof.
  unfold the_hook, draw_background, A4. cbv beta iota zeta.
  repeat first
    [ apply appends_emit
    | apply appends_eval
    | apply appends_dbind; [| intros ?] ].
Qed.

Lemma the_hook_returns total_avg classification rt doc :
  fst (the_hook total_avg classification rt [] doc) = Normal tt.
Proof. vm_compute. reflexivity. Qed.

(* ================================================================== *)
(** * The service at work                                               *)
(* ================================================================== *)

(** The report of the spec's example, on a desktop without [Downloads]:
    the directory is made, the table ends with the totals 7 and 97.50,
    and the message names the saved file. *)
Example good_report_on_desktop :
  let x := run Nominal.respond Sample.good_report Nominal.desktop in
  result_of x = Normal (true, "Saved to: /home/karim/Downloads/good_report.pdf") /\
  tables_built (trace_of x)
  = [[header_row;
      subject_row Sample.math "15.00" "4" "60.00";
      subject_row Sample.physics "12.50" "3" "37.50";
      totals_row "7" "97.50"]] /\
  Nominal.dirs (world_of x) = ["/"; "/home"; "/home/karim"; "/home/karim/Downloads"] /\
  map fst (Nominal.documents (world_of x)) = ["/home/karim/Downloads/good_report.pdf"].
Proof. vm_compute. auto. Qed.

(** On the phone the document has two pages, and each shows the badge. *)
Example good_report_on_phone :
  let x := run Nominal.respond Sample.good_report Nominal.phone in
  result_of x = Normal (true, "Saved to: /storage/emulated/0/Download/good_report.pdf") /\
  map (fun doc => map (fun page => filter centred (texts_from (GState white ("", PyInt 0)) [] page))
                      (snd doc))
      (Nominal.documents (world_of x))
  = [[badge_texts (Nominal.runtime_of Nominal.phone) Sample.total_avg "good";
      badge_texts (Nominal.runtime_of Nominal.phone) Sample.total_avg "good"]] /\
  map sh_text (badge_texts (Nominal.runtime_of Nominal.phone) Sample.total_avg "good")
  = ["13.80"; "/ 20"; "PERFORMANCE: GOOD"].
Proof. vm_compute. auto. Qed.

(** The report without subjects. *)
Example empty_report_on_desktop :
  let x := run Nominal.respond Sample.empty_report Nominal.desktop in
  result_of x = Normal (true, "Saved to: /home/karim/Downloads/empty.pdf") /\
  tables_built (trace_of x) = [empty_table].
Proof. vm_compute. auto. Qed.

(** The callback receives the failure of the layout. *)
Example callback_receives_failure :
  let f := Callable "on_done" in
  let x := run Nominal.respond
             (task Sample.subjects Sample.total_avg "good" "good_report.pdf" (Some f))
             (Sample.failing 18 Sample.misleading) in
  result_of x = Normal tt /\
  Nominal.called_back (world_of x) = [(f, (false, "Path Error: layout failed"))].
Proof. vm_compute. auto. Qed.

(** ** Instances of the conditional properties *)

Lemma path_error_returns_immediately_witness :
  result_of (run Nominal.respond (path_selection "good_report.pdf")
               (Sample.failing 4 Sample.denied)) = Raised Sample.denied /\
  result_of (run Nominal.respond Sample.good_report (Sample.failing 4 Sample.denied))
  = Normal (false, "Path Error: [Errno 13] Permission denied: '/home/karim/Downloads'") /\
  tables_built (trace_of (run Nominal.respond Sample.good_report
                            (Sample.failing 4 Sample.denied))) = [].
Proof.
  assert (H : result_of (run Nominal.respond (path_selection "good_report.pdf")
                           (Sample.failing 4 Sample.denied)) = Raised Sample.denied)
    by (vm_compute; reflexivity).
  split; [exact H |].
  pose proof (path_error_returns_immediately Nominal.respond
                (Sample.failing 4 Sample.denied) Sample.subjects Sample.total_avg
                "good" "good_report.pdf" Sample.denied H) as T.
  cbv zeta in T. destruct T as (T1 & _ & _ & _ & T2 & _).
  split; [exact T1 | exact T2].
Defined.

Lemma path_selection_choice_witness :
  result_of (run Nominal.respond (path_selection "good_report.pdf") Nominal.desktop)
  = Normal "/home/karim/Downloads/good_report.pdf" /\
  selection "good_report.pdf" "/home/karim/Downloads/good_report.pdf"
    (trace_of (run Nominal.respond (path_selection "good_report.pdf") Nominal.desktop)).
Proof.
  split; [vm_compute; reflexivity |].
  apply (path_selection_choice Nominal.respond). vm_compute. reflexivity.
Defined.

Lemma success_message_witness :
  result_of (run Nominal.respond (path_selection "good_report.pdf") Nominal.desktop)
  = Normal "/home/karim/Downloads/good_report.pdf" /\
  result_of (run Nominal.respond Sample.good_report Nominal.desktop)
  = Normal (true, "Saved to: /home/karim/Downloads/good_report.pdf").
Proof.
  split; [vm_compute; reflexivity |].
  apply (success_message Nominal.respond Nominal.desktop Sample.subjects Sample.total_avg
           "good" "good_report.pdf" "/home/karim/Downloads/good_report.pdf"
           (true, "Saved to: /home/karim/Downloads/good_report.pdf")).
  - vm_compute. reflexivity.
  - vm_compute. reflexivity.
Defined.

(** C10, as stated, fails: the layout fails with a text that starts
    with ["Path Error: "], and so does the message, although the path
    selection returned. *)
Lemma prefix_counterexample :
  ~ prefix_tells_stage Nominal.respond (Sample.failing 16 Sample.misleading)
      [] Sample.total_avg "good" "empty.pdf".
Proof.
  intros H. specialize (H "Path Error: layout failed").
  destruct H as [H _]; [vm_compute; reflexivity |].
  destruct H as [e He]; [vm_compute; reflexivity |].
  vm_compute in He. discriminate He.
Qed.

Lemma failure_message_by_stage_witness :
  result_of (run Nominal.respond Sample.empty_report (Sample.failing 16 Sample.misleading))
  = Normal (false, "Path Error: layout failed") /\
  ((exists e,
      result_of (run Nominal.respond (path_selection "empty.pdf")
                   (Sample.failing 16 Sample.misleading)) = Raised e /\
      "Path Error: layout failed" = "Path Error: " ++ exn_str e /\
      String.prefix "Path Error: " "Path Error: layout failed" = true) \/
   (exists full_path e,
      result_of (run Nominal.respond (path_selection "empty.pdf")
                   (Sample.failing 16 Sample.misleading)) = Normal full_path /\
      result_of (run Nominal.respond
                   (build_document [] Sample.total_avg "good" full_path
                      C_PRIMARY C_SECONDARY (the_hook Sample.total_avg "good"))
                   (world_of (run Nominal.respond (path_selection "empty.pdf")
                                (Sample.failing 16 Sample.misleading)))) = Raised e /\
      "Path Error: layout failed" = exn_str e)).
Proof.
  split; [vm_compute; reflexivity |].
  apply (failure_message_by_stage Nominal.respond (Sample.failing 16 Sample.misleading)
           [] Sample.total_avg "good" "empty.pdf" "Path Error: layout failed").
  vm_compute. reflexivity.
Defined.

(* ================================================================== *)
(** * The course of a run: calls, order and answers                     *)
(* ================================================================== *)

Lemma made_app tr1 tr2 : made (tr1 ++ tr2) = (made tr1 ++ made tr2)%list.
Proof.
  induction tr1 as [| [R c r] tr1 IH]; simpl; [reflexivity |].
  destruct c; simpl; rewrite ?IH; reflexivity.
Qed.

Lemma builds_app tr1 tr2 : builds (tr1 ++ tr2) = (builds tr1 ++ builds tr2)%list.
Proof.
  induction tr1 as [| [R c r] tr1 IH]; simpl; [reflexivity |].
  destruct c; simpl; rewrite ?IH; reflexivity.
Qed.

Lemma built_ok_app tr1 tr2 :
  built_ok tr1 = false -> built_ok (tr1 ++ tr2) = built_ok tr2.
Proof.
  induction tr1 as [| [R c r] tr1 IH]; simpl; [reflexivity |].
  destruct c; simpl; auto. destruct r; auto. discriminate.
Qed.

Lemma quiet_app tr1 tr2 : quiet (tr1 ++ tr2) = (quiet tr1 && quiet tr2)%bool.
Proof. apply forallb_app. Qed.

Lemma quiet_removelast tr : quiet tr = true -> quiet (removelast tr) = true.
Proof.
  induction tr as [| ev tr IH]; [reflexivity |].
  intros H. cbn [quiet forallb] in H. apply andb_true_iff in H. destruct H as [He Ht].
  destruct tr as [| ev' tr']; [reflexivity |].
  change (removelast (ev :: ev' :: tr')) with (ev :: removelast (ev' :: tr')).
  cbn [quiet forallb]. rewrite He. exact (IH Ht).
Qed.

(** A trace stays "quiet but for its last call" when quiet calls are
    put in front of it. *)
Lemma quiet_before tr1 tr2 :
  quiet tr1 = true -> quiet (removelast tr2) = true ->
  quiet (removelast (tr1 ++ tr2)) = true.
Proof.
  intros H1 H2. destruct tr2 as [| ev tr2].
  - rewrite app_nil_r. apply quiet_removelast, H1.
  - rewrite removelast_app by discriminate. rewrite quiet_app, H1, H2. reflexivity.
Qed.

Lemma names_quiet subjects :
  quiet (names subjects) = true /\ made (names subjects) = [] /\
  builds (names subjects) = [] /\ built_ok (names subjects) = false.
Proof. induction subjects as [| sub rest IH]; simpl; auto. Qed.

Lemma path_calls_build_nothing tr :
  forallb (on_call (@is_path_call)) tr = true ->
  builds tr = [] /\ built_ok tr = false.
Proof.
  induction tr as [| [R c r] tr IH]; simpl; [auto |].
  intros H. apply andb_true_iff in H. destruct H as [Hc Htr].
  destruct c; simpl in *; try discriminate; auto.
Qed.

Section PathCourse.
Context {W : Type} (h : handler W).

Ltac answer :=
  match goal with
  | |- context [h ?R ?c ?w] => destruct (h R c w) as [[? | ?] ?]
  end; cbn [run bind perform of_outcome].

Ltac done := simpl; repeat split; auto.

(** The path selection stops at the first call that raises, succeeds
    only when every call was answered, then with one of the three
    [selection]s, and reaches [os.makedirs] only after both existence
    checks answered [False]. *)
Lemma path_selection_course filename (w : W) :
  match run h (path_selection filename) w with
  | (o, _, tr) =>
      quiet (removelast tr) = true /\
      match o with
      | Normal p => quiet tr = true /\ selection filename p tr
      | Raised e => quiet tr = false /\ last_raised tr = Some e
      end /\
      (made tr = [] \/
       exists home desktop ans rest,
         tr = (probes home desktop ++
               Event (os_path_exists android_path) (Normal false)
               :: Event (os_path_exists desktop) (Normal false)
               :: Event (os_makedirs desktop) ans :: rest)%list /\
         made tr = [desktop])
  end.
Proof.
  unfold path_selection. cbn [run bind perform of_outcome].
  answer; [| done].
  answer; [| done].
  answer; [| done].
  destruct a1; cbn [run bind perform of_outcome].
  - answer; [| done]. simpl. repeat split; auto. apply (mobile _ _ a a0).
  - answer; [| done].
    destruct a1; cbn [negb run bind perform of_outcome].
    + answer; [| done]. simpl. repeat split; auto. apply (desktop_present _ _ a a0).
    + answer.
      * destruct a1. answer; simpl; repeat split; auto;
          try (apply (desktop_created _ _ a a0));
          right; eexists a, a0, (Normal tt), _; split; reflexivity.
      * simpl; repeat split; auto; right.
        eexists a, a0, (Raised e), _; split; reflexivity.
Qed.

End PathCourse.

(** ** Data that can be displayed never makes the loop raise *)

Lemma rest_ok_cons total_c total_w sub rest :
  rest_ok total_c total_w (sub :: rest) = true ->
  formats (average sub) = true /\ prints (coeff sub) = true /\
  formats (weighted_score sub) = true /\
  exists tc tw,
    py_add total_c (coeff sub) = Normal tc /\
    py_add total_w (weighted_score sub) = Normal tw /\
    rest_ok tc tw rest = true.
Proof.
  unfold rest_ok, totals_ok, row_ok. cbn [forallb map]. rewrite !sum_from_cons.
  intros H.
  apply andb_true_iff in H. destruct H as [H Ht].
  apply andb_true_iff in H. destruct H as [H Hr].
  apply andb_true_iff in H. destruct H as [H Hw].
  apply andb_true_iff in H. destruct H as [Ha Hc].
  destruct (py_add total_c (coeff sub)) as [tc | e]; [| discriminate Ht].
  destruct (py_add total_w (weighted_score sub)) as [tw | e];
    [| rewrite andb_false_r in Ht; discriminate Ht].
  repeat split; auto. exists tc, tw. repeat split; auto.
  rewrite Hr, Ht. reflexivity.
Qed.

Lemma rest_ok_totals total_c total_w subjects tc tw :
  rest_ok total_c total_w subjects = true ->
  sum_from total_c (map coeff subjects) = Normal tc ->
  sum_from total_w (map weighted_score subjects) = Normal tw ->
  prints tc = true /\ formats tw = true.
Proof.
  unfold rest_ok, totals_ok. intros H Hc Hw. rewrite Hc, Hw in H.
  apply andb_true_iff in H. destruct H as [_ H].
  apply andb_true_iff in H. exact H.
Qed.

Lemma formats_normal x e : formats x = true -> format_2f x <> Raised e.
Proof. unfold formats. intros H E. rewrite E in H. discriminate H. Qed.

Lemma prints_normal x e : prints x = true -> py_str x <> Raised e.
Proof. unfold prints. intros H E. rewrite E in H. discriminate H. Qed.

Section RenderingCourse.
Context {W : Type} (h : handler W).

Ltac answer :=
  match goal with
  | |- context [h ?R ?c ?w] => destruct (h R c w) as [[[] | ?] ?]
  end; cbn [run bind perform of_outcome Paragraph_].

(** The loop makes one [Paragraph] call per subject and nothing else;
    it stops at the first one that raises; on data that can be
    displayed it raises only if a call did. *)
Lemma subjects_loop_course subjects : forall (w : W) data total_c total_w,
  match run h (subjects_loop (SampleStyle "Normal") subjects data total_c total_w) w with
  | (o, _, tr) =>
      made tr = [] /\ builds tr = [] /\ built_ok tr = false /\
      quiet (removelast tr) = true /\
      match o with
      | Normal _ => tr = names subjects
      | Raised e =>
          (quiet tr = true -> rest_ok total_c total_w subjects = true -> False) /\
          (quiet tr = false -> last_raised tr = Some e)
      end
  end.
Proof.
  induction subjects as [| sub rest IH]; intros w data total_c total_w.
  - cbn [subjects_loop run]. simpl. repeat split; auto.
  - cbn [subjects_loop]. cbn [run bind perform of_outcome Paragraph_].
    answer; [| simpl; repeat split; auto; intros Q; discriminate Q].
    destruct (format_2f (average sub)) as [av | e] eqn:Ea; cbn [run bind of_outcome].
    2:{ simpl. repeat split; auto; try (intros Q; discriminate Q). intros _ Ho.
        apply rest_ok_cons in Ho. destruct Ho as (Ha & _).
        exact (formats_normal _ e Ha Ea). }
    destruct (py_str (coeff sub)) as [cs | e] eqn:Es; cbn [run bind of_outcome].
    2:{ simpl. repeat split; auto; try (intros Q; discriminate Q). intros _ Ho.
        apply rest_ok_cons in Ho. destruct Ho as (_ & Hc & _).
        exact (prints_normal _ e Hc Es). }
    destruct (format_2f (weighted_score sub)) as [ws | e] eqn:Ew;
      cbn [run bind of_outcome].
    2:{ simpl. repeat split; auto; try (intros Q; discriminate Q). intros _ Ho.
        apply rest_ok_cons in Ho. destruct Ho as (_ & _ & Hw & _).
        exact (formats_normal _ e Hw Ew). }
    destruct (py_add total_c (coeff sub)) as [tc | e] eqn:Ec; cbn [run bind of_outcome].
    2:{ simpl. repeat split; auto; try (intros Q; discriminate Q). intros _ Ho.
        apply rest_ok_cons in Ho. destruct Ho as (_ & _ & _ & tc & tw & Hc & _).
        congruence. }
    destruct (py_add total_w (weighted_score sub)) as [tw | e] eqn:Et;
      cbn [run bind of_outcome].
    2:{ simpl. repeat split; auto; try (intros Q; discriminate Q). intros _ Ho.
        apply rest_ok_cons in Ho. destruct Ho as (_ & _ & _ & tc' & tw & _ & Hw & _).
        congruence. }
    match goal with
    | |- context [run h (subjects_loop ?s rest ?d tc tw) ?w'] =>
        specialize (IH w' d tc tw);
        destruct (run h (subjects_loop s rest d tc tw) w') as [[o w1] tr]
    end.
    destruct IH as (Hm & Hb & Hk & Hq & Ho).
    cbn [made builds built_ok]. repeat split; auto.
    + match goal with
      | |- quiet (removelast (?ev :: tr)) = true =>
          exact (quiet_before [ev] tr eq_refl Hq)
      end.
    + destruct o as [[[data' tc'] tw'] | e].
      * rewrite Ho. reflexivity.
      * destruct Ho as [Ho Hl]. split.
        -- intros Q Hord. apply rest_ok_cons in Hord.
           destruct Hord as (_ & _ & _ & tc' & tw' & Hc & Hw & Hr).
           rewrite Ec in Hc. rewrite Et in Hw. injection Hc as <-. injection Hw as <-.
           apply (Ho Q Hr).
        -- exact Hl.
Qed.

(** The course of the second [try] block: it makes no [os.makedirs]
    call and stops at the first call that raises; either it ends before
    [doc.build] by an exception, which on data that can be displayed
    comes from a call, or its calls are the opening, one [Paragraph] per subject and
    the closing with [doc.build] last, whose answer decides the
    outcome. *)
Lemma build_document_course subjects total_avg classification full_path f (w : W) :
  match run h (build_document subjects total_avg classification full_path
                 C_PRIMARY C_SECONDARY f) w with
  | (o, _, tr) =>
      made tr = [] /\ quiet (removelast tr) = true /\
      ((builds tr = [] /\ built_ok tr = false /\
        exists e, o = Raised e /\
                  (quiet tr = true -> data_ok subjects = true -> False) /\
                  (quiet tr = false -> last_raised tr = Some e)) \/
       (exists d ans,
          table_for subjects d /\
          tr = (opening full_path ++ names subjects ++ closing d full_path f ans)%list /\
          o = match ans with
              | Normal _ => Normal (verdict full_path ans)
              | Raised e => Raised e
              end))
  end.
Proof.
  unfold build_document. cbn [run bind perform of_outcome Paragraph_].
  do 8 (answer;
        [| simpl; repeat split; auto; left; repeat split; auto;
           eexists; repeat split; auto; intros Q; discriminate Q]).
  rewrite (run_bind h).
  pose proof (run_subjects_loop h subjects w7 [header_row] (PyInt 0) (PyInt 0)) as L1.
  pose proof (subjects_loop_course subjects w7 [header_row] (PyInt 0) (PyInt 0)) as L2.
  unfold header_row, style_hl, style_h in L1, L2.
  match goal with
  | |- context [run h (subjects_loop ?s ?l ?d ?c ?t) ?w] =>
      destruct (run h (subjects_loop s l d c t) w) as [[o w8] tr]
  end.
  destruct L1 as (_ & _ & _ & Ho1).
  destruct L2 as (Hm & Hb & Hk & Hq & Ho2).
  assert (Op : quiet (opening full_path) = true) by reflexivity.
  destruct o as [[[data total_c] total_w] | e]; cbv beta iota.
  2:{ destruct Ho2 as [Ho2 Hl]. split; [exact Hm | split].
      - exact (quiet_before (opening full_path) tr Op Hq).
      - left. cbn [builds built_ok]. repeat split; auto.
        exists e. split; [reflexivity | split].
        + intros Q Hord. apply (Ho2 Q Hord); reflexivity.
        + intros Q. cbn [last_raised]. apply Hl. exact Q. }
  destruct Ho1 as (rows & -> & Hrows & Hc & Hw).
  subst tr.
  destruct (names_quiet subjects) as (Nq & Nm & Nb & Nk).
  assert (Last : forall tail, tail <> [] ->
            last_raised (opening full_path ++ names subjects ++ tail) = last_raised tail).
  { intros tail Ht. cbn [opening app last_raised].
    clear - Ht. induction subjects as [| sub rest IH]; [reflexivity |].
    cbn [names map app last_raised]. exact IH. }
  assert (Loud : forall tail, quiet tail = false ->
            quiet (opening full_path ++ names subjects ++ tail) = false).
  { intros tail Ht. rewrite !quiet_app, Op, Nq, Ht. reflexivity. }
  destruct (py_str total_c) as [coefficient | e] eqn:Es;
    cbn [run bind perform of_outcome app].
  2:{ split; [| split].
      - cbn [made]. rewrite app_nil_r. exact Nm.
      - rewrite app_nil_r.
        exact (quiet_before (opening full_path) _ Op (quiet_removelast _ Nq)).
      - left. cbn [builds built_ok]. rewrite app_nil_r. repeat split; auto.
        exists e. split; [reflexivity | split].
        + intros _ Hord. exfalso.
          destruct (rest_ok_totals _ _ _ _ _ Hord Hc Hw) as [Hp _].
          exact (prints_normal _ e Hp Es).
        + intros Q. exfalso.
          change (quiet (opening full_path ++ names subjects) = false) in Q.
          rewrite quiet_app, Op, Nq in Q. discriminate Q. }
  destruct (format_2f total_w) as [weighted | e] eqn:Ef;
    cbn [run bind perform of_outcome app].
  { assert (Hd : table_for subjects
                   (header_row :: rows ++ [totals_row coefficient weighted])%list).
    { exists rows, total_c, total_w, coefficient, weighted. repeat split; auto. }
    unfold header_row, style_hl, style_h, totals_row in Hd.
    answer.
    2:{ split; [| split].
        - cbn [made]. rewrite made_app, Nm. reflexivity.
        - apply (quiet_before (opening full_path) (names subjects ++ [_])).
          + exact Op.
          + apply quiet_before; [exact Nq | reflexivity].
        - left. cbn [builds built_ok].
          rewrite builds_app, Nb, (built_ok_app _ _ Nk). repeat split; auto.
          exists e. split; [reflexivity | split].
          + intros Q. exfalso.
            match type of Q with
            | quiet (_ :: _ :: _ :: _ :: _ :: _ :: _ :: _ :: names subjects ++ ?t) = true =>
                change (quiet (opening full_path ++ names subjects ++ t) = true) in Q;
                rewrite (Loud t eq_refl) in Q
            end.
            discriminate Q.
          + intros _.
            match goal with
            | |- last_raised (_ :: _ :: _ :: _ :: _ :: _ :: _ :: _ :: names subjects ++ ?t)
                 = _ => exact (Last t ltac:(discriminate))
            end. }
    answer.
    2:{ split; [| split].
        - cbn [made]. rewrite made_app, Nm. reflexivity.
        - apply (quiet_before (opening full_path) (names subjects ++ [_; _])).
          + exact Op.
          + apply quiet_before; [exact Nq | reflexivity].
        - left. cbn [builds built_ok].
          rewrite builds_app, Nb, (built_ok_app _ _ Nk). repeat split; auto.
          exists e. split; [reflexivity | split].
          + intros Q. exfalso.
            match type of Q with
            | quiet (_ :: _ :: _ :: _ :: _ :: _ :: _ :: _ :: names subjects ++ ?t) = true =>
                change (quiet (opening full_path ++ names subjects ++ t) = true) in Q;
                rewrite (Loud t eq_refl) in Q
            end.
            discriminate Q.
          + intros _.
            match goal with
            | |- last_raised (_ :: _ :: _ :: _ :: _ :: _ :: _ :: _ :: names subjects ++ ?t)
                 = _ => exact (Last t ltac:(discriminate))
            end. }
    answer.
    - split; [| split].
      + cbn [made]. rewrite made_app, Nm. reflexivity.
      + apply (quiet_before (opening full_path) (names subjects ++ [_; _; _])).
        * exact Op.
        * apply quiet_before; [exact Nq | reflexivity].
      + right. eexists _, (Normal tt). split; [exact Hd |]. split; reflexivity.
    - split; [| split].
      + cbn [made]. rewrite made_app, Nm. reflexivity.
      + apply (quiet_before (opening full_path) (names subjects ++ [_; _; _])).
        * exact Op.
        * apply quiet_before; [exact Nq | reflexivity].
      + right. eexists _, (Raised e). split; [exact Hd |]. split; reflexivity. }
  split; [| split].
  - cbn [made]. rewrite app_nil_r. exact Nm.
  - rewrite app_nil_r. exact (quiet_before (opening full_path) _ Op (quiet_removelast _ Nq)).
  - left. cbn [builds built_ok]. rewrite app_nil_r. repeat split; auto.
    exists e. split; [reflexivity | split].
    + intros _ Hord. exfalso.
      destruct (rest_ok_totals _ _ _ _ _ Hord Hc Hw) as [_ Hf].
      exact (formats_normal _ e Hf Ef).
    + intros Q. exfalso.
      change (quiet (opening full_path ++ names subjects) = false) in Q.
      rewrite quiet_app, Op, Nq in Q. discriminate Q.
Qed.

End RenderingCourse.

(** ** The course of [generate] *)

Section GenerateCourse.
Context {W : Type} (h : handler W).

(** Every run of [generate]: it stops at the first call that raises;
    [os.makedirs] is reached only after both existence checks answered
    [False]; and either [doc.build] is never called and the run reports
    a failure, which on data that can be displayed comes from a call,
    or the calls
    are those of a path selection, the opening, one [Paragraph] per
    subject and the closing, and the answer of [doc.build] decides the
    result. *)
Lemma generate_course subjects total_avg classification filename (w : W) :
  match run h (generate subjects total_avg classification filename) w with
  | (o, _, tr) =>
      quiet (removelast tr) = true /\
      (made tr = [] \/
       exists home desktop ans rest,
         tr = (probes home desktop ++
               Event (os_path_exists android_path) (Normal false)
               :: Event (os_path_exists desktop) (Normal false)
               :: Event (os_makedirs desktop) ans :: rest)%list /\
         made tr = [desktop]) /\
      ((builds tr = [] /\ built_ok tr = false /\
        exists msg, o = Normal (false, msg) /\
                    (quiet tr = true -> data_ok subjects = true -> False)) \/
       (exists p tr1 d ans,
          selection filename p tr1 /\ quiet tr1 = true /\
          forallb (on_call (@is_path_call)) tr1 = true /\
          table_for subjects d /\
          tr = (tr1 ++ opening p ++ names subjects ++
                closing d p (the_hook total_avg classification) ans)%list /\
          o = Normal (verdict p ans)))
  end.
Proof.
  rewrite run_generate.
  pose proof (path_selection_course h filename w) as P.
  pose proof (path_selection_calls h filename w) as C.
  destruct (run h (path_selection filename) w) as [[[p | e] w1] tr1];
    cbn [trace_of snd] in C; pose proof (path_calls_build_nothing _ C) as C';
    destruct C' as (Cb & Ck); destruct P as (Pq & Po & Pm).
  - destruct Po as (Pa & Ps).
    pose proof (build_document_course h subjects total_avg classification p
                  (the_hook total_avg classification) w1) as B.
    destruct (run h (build_document _ _ _ _ _ _ _) w1) as [[o w2] tr2].
    destruct B as (Bm & Bq & B).
    assert (M : made (tr1 ++ tr2) = made tr1).
    { rewrite made_app, Bm. apply app_nil_r. }
    assert (Q : quiet (removelast (tr1 ++ tr2)) = true)
      by exact (quiet_before tr1 tr2 Pa Bq).
    assert (R : forall r : outcome result,
              match o with Normal r0 => Normal r0 | Raised e => Normal (false, exn_str e) end = r ->
              quiet (removelast (tr1 ++ tr2)) = true /\
              (made (tr1 ++ tr2) = [] \/
               exists home desktop ans rest,
                 (tr1 ++ tr2)%list
                 = (probes home desktop ++
                    Event (os_path_exists android_path) (Normal false)
                    :: Event (os_path_exists desktop) (Normal false)
                    :: Event (os_makedirs desktop) ans :: rest)%list /\
                 made (tr1 ++ tr2) = [desktop]) /\
              ((builds (tr1 ++ tr2) = [] /\ built_ok (tr1 ++ tr2) = false /\
                exists msg, r = Normal (false, msg) /\
                  (quiet (tr1 ++ tr2) = true -> data_ok subjects = true -> False)) \/
               (exists p0 tr0 d ans,
                  selection filename p0 tr0 /\ quiet tr0 = true /\
                  forallb (on_call (@is_path_call)) tr0 = true /\
                  table_for subjects d /\
                  (tr1 ++ tr2)%list
                  = (tr0 ++ opening p0 ++ names subjects ++
                     closing d p0 (the_hook total_avg classification) ans)%list /\
                  r = Normal (verdict p0 ans)))).
    { intros r Er. split; [exact Q | split].
      - rewrite M. destruct Pm as [Pm | (home & desktop & ans & rest & -> & Pm)].
        + left. exact Pm.
        + right. exists home, desktop, ans, (rest ++ tr2)%list. split; [| exact Pm].
          rewrite <- app_assoc. reflexivity.
      - destruct B as [(Bb & Bk & e & -> & Bo) | (d & ans & Bd & -> & ->)].
        + left. rewrite builds_app, Cb, Bb, (built_ok_app _ _ Ck), Bk.
          repeat split; auto. subst r. exists (exn_str e). split; [reflexivity |].
          intros Qa. rewrite quiet_app in Qa. apply andb_true_iff in Qa.
          exact (proj1 Bo (proj2 Qa)).
        + right. exists p, tr1, d, ans. repeat split; auto.
          subst r. destruct ans; reflexivity. }
    destruct o as [r | e]; apply R; reflexivity.
  - split; [exact Pq | split; [exact Pm |]].
    left. repeat split; auto. eexists. split; [reflexivity |].
    intros Qa. rewrite (proj1 Po) in Qa. discriminate Qa.
Qed.

End GenerateCourse.

Lemma names_build_no_table subjects : tables_built (names subjects) = [].
Proof. induction subjects as [| sub rest IH]; simpl; auto. Qed.

(** What the calls of a run that reached [doc.build] amount to. *)
Lemma script_facts tr1 p subjects d f ans :
  forallb (on_call (@is_path_call)) tr1 = true ->
  let tr := (tr1 ++ opening p ++ names subjects ++ closing d p f ans)%list in
  builds tr = [(document p, [the_table d])] /\
  tables_built tr = [d] /\
  built_ok tr = (match ans with Normal _ => true | Raised _ => false end) /\
  (quiet tr = true -> exists u, ans = Normal u).
Proof.
  intros C. cbv zeta.
  destruct (path_calls_only _ C) as (_ & Ct & _).
  destruct (path_calls_build_nothing _ C) as (Cb & Ck).
  destruct (names_quiet subjects) as (Nq & Nm & Nb & Nk).
  repeat split.
  - rewrite builds_app, Cb. cbn [app opening builds].
    rewrite builds_app, Nb. reflexivity.
  - rewrite tables_built_app, Ct. cbn [app opening tables_built table_of].
    rewrite tables_built_app, names_build_no_table. reflexivity.
  - rewrite (built_ok_app _ _ Ck). cbn [app opening built_ok].
    rewrite (built_ok_app _ _ Nk). destruct ans; reflexivity.
  - intros Q. rewrite quiet_app in Q. apply andb_true_iff in Q. destruct Q as [_ Q].
    rewrite quiet_app in Q. apply andb_true_iff in Q. destruct Q as [_ Q].
    rewrite quiet_app in Q. apply andb_true_iff in Q. destruct Q as [_ Q].
    destruct ans as [u | e]; [eauto | discriminate Q].
Qed.

(* ================================================================== *)
(** * The table and the badge in a run                                  *)
(* ================================================================== *)

Lemma table_for_totals_shown subjects d : table_for subjects d -> totals_shown subjects d.
Proof.
  intros (rows & tc & tw & cs & ws & -> & _ & Hc & Hw & Hs & Hf).
  exists tc, tw, cs, ws. repeat split; auto.
  change (header_row :: rows ++ [totals_row cs ws])%list
    with ((header_row :: rows) ++ [totals_row cs ws])%list.
  apply last_last.
Qed.

Lemma table_for_empty d : table_for [] d -> d = empty_table.
Proof.
  intros (rows & tc & tw & cs & ws & -> & Hrows & Hc & Hw & Hs & Hf).
  inversion Hrows; subst. injection Hc as <-. injection Hw as <-.
  vm_compute in Hs. injection Hs as <-. vm_compute in Hf. injection Hf as <-.
  reflexivity.
Qed.

(** A run on data that can be displayed, in which every call was
    answered with a value, hands the table of the subjects to the
    engine, registers the decoration for the first and the later pages,
    and reports success. *)
Lemma displayable_run {W} (h : handler W) (w : W)
    subjects total_avg classification filename :
  let x := run h (generate subjects total_avg classification filename) w in
  data_ok subjects = true -> quiet (trace_of x) = true ->
  exists d p,
    table_for subjects d /\ tables_built (trace_of x) = [d] /\
    hooks_registered (trace_of x)
    = [(the_hook total_avg classification, the_hook total_avg classification)] /\
    result_of x = Normal (true, "Saved to: " ++ p).
Proof.
  cbv zeta.
  pose proof (generate_summary h subjects total_avg classification filename w) as S.
  pose proof (generate_course h subjects total_avg classification filename w) as G.
  destruct (run h (generate _ _ _ _) w) as [[o w'] tr].
  destruct S as (_ & _ & _ & ok & msg & So & Sk). destruct G as (_ & _ & G).
  cbn [result_of trace_of fst snd]. intros Hd Q.
  destruct G as [(_ & _ & m & _ & F) | (p & tr1 & d & ans & _ & _ & C & T & E & ->)].
  - destruct (F Q Hd).
  - subst tr.
    destruct (script_facts tr1 p subjects d (the_hook total_avg classification) ans C)
      as (_ & Ft & _ & N).
    destruct (N Q) as [u ->]. cbn [verdict] in *.
    injection So as <- <-. destruct Sk as (_ & Sh).
    exists d, p. repeat split; auto.
Qed.

(** C1. In every run of [generate], every table handed to the engine
    ends with the totals row ["", "TOTALS", str(total_c), total_w to two
    decimals], where [total_c] and [total_w] are the sums of the [coeff]
    and [weighted_score] fields accumulated in input order from 0.  The
    table is built: on data that can be displayed, a run in which every
    call was answered with a value hands over exactly one table, with
    that totals row as its last row, and reports success; and any run
    that reports success has handed over exactly one table.  When the
    coefficients are [int]s their total is their arithmetic sum. *)
Theorem totals_row_sums {W} (h : handler W) (w : W) subjects total_avg classification filename :
  let x := run h (generate subjects total_avg classification filename) w in
  Forall (totals_shown subjects) (tables_built (trace_of x)) /\
  (data_ok subjects = true -> quiet (trace_of x) = true ->
   exists d p,
     tables_built (trace_of x) = [d] /\ totals_shown subjects d /\
     result_of x = Normal (true, "Saved to: " ++ p)) /\
  match result_of x with
  | Normal (true, _) => exists d, tables_built (trace_of x) = [d]
  | _ => True
  end /\
  (forall zs, map coeff subjects = map PyInt zs ->
              sum_in_order (map coeff subjects) = Normal (PyInt (Zsum zs))).
Proof.
  cbv zeta.
  pose proof (displayable_run h w subjects total_avg classification filename) as D.
  pose proof (generate_summary h subjects total_avg classification filename w) as G.
  cbv zeta in D.
  destruct (run h (generate _ _ _ _) w) as [[o w'] tr].
  destruct G as (_ & Ht & _ & ok & msg & -> & Hok).
  cbn [result_of trace_of fst snd] in *. split; [| split; [| split]].
  - destruct Ht as [-> | (d & -> & T)].
    + constructor.
    + constructor; [| constructor]. apply table_for_totals_shown, T.
  - intros Hd Q. destruct (D Hd Q) as (d & p & T & Hb & _ & Hr).
    exists d, p. repeat split; auto. apply table_for_totals_shown, T.
  - destruct ok; [apply Hok | exact I].
  - apply total_coefficient_of_ints.
Qed.

(** C6. With no subjects, the only table [generate] can hand to the
    engine is the header row followed by the totals row
    ["", "TOTALS", "0", "0.00"].  The table is built: a run in which
    every call was answered with a value hands over exactly that table
    and reports success; and any run that reports success has handed
    over exactly that table. *)
Theorem empty_report_table {W} (h : handler W) (w : W) total_avg classification filename :
  let x := run h (generate [] total_avg classification filename) w in
  (tables_built (trace_of x) = [] \/ tables_built (trace_of x) = [empty_table]) /\
  (quiet (trace_of x) = true ->
   tables_built (trace_of x) = [empty_table] /\
   exists p, result_of x = Normal (true, "Saved to: " ++ p)) /\
  match result_of x with
  | Normal (true, _) => tables_built (trace_of x) = [empty_table]
  | _ => True
  end.
Proof.
  cbv zeta.
  pose proof (displayable_run h w [] total_avg classification filename) as D.
  pose proof (generate_summary h [] total_avg classification filename w) as G.
  cbv zeta in D.
  destruct (run h (generate _ _ _ _) w) as [[o w'] tr].
  destruct G as (_ & Ht & _ & ok & msg & -> & Hok).
  cbn [result_of trace_of fst snd] in *.
  split; [| split].
  - destruct Ht as [-> | (d & -> & Hd)]; [left; reflexivity |].
    right. rewrite (table_for_empty d Hd). reflexivity.
  - intros Q. destruct (D eq_refl Q) as (d & p & T & Hb & _ & Hr).
    rewrite Hb, (table_for_empty d T). split; [reflexivity |]. exists p. exact Hr.
  - destruct ok; [| exact I].
    destruct Hok as ((d & Hd) & _).
    destruct Ht as [Ht | (d' & Ht & Hd')]; rewrite Ht in Hd; [discriminate |].
    rewrite Ht, (table_for_empty d' Hd'). reflexivity.
Qed.

(** C9. Whenever [generate] calls [doc.build] it hands it the
    decoration as the hook of the first page and of the later pages
    alike; it does so on data that can be displayed in a run in which
    every call was answered with a value, and in any run that reports
    success.  Run on any page, in any runtime, the decoration returns
    normally, only adds to the canvas, draws the two circles of the
    badge at [(cx, cy)], and its centred texts are the average through
    [.2f] (two decimals when it is finite), ["/ 20"] under it, both
    inside the circles, and under the circles ["PERFORMANCE: "] with
    the label as [str.upper] of the runtime gives it, in the secondary
    colour. *)
Theorem badge_on_every_page {W} (h : handler W) (w : W)
    subjects total_avg classification filename :
  let x := run h (generate subjects total_avg classification filename) w in
  let decoration := the_hook total_avg classification in
  Forall (fun p => p = (decoration, decoration)) (hooks_registered (trace_of x)) /\
  (data_ok subjects = true -> quiet (trace_of x) = true ->
   hooks_registered (trace_of x) = [(decoration, decoration)]) /\
  match result_of x with
  | Normal (true, _) => hooks_registered (trace_of x) = [(decoration, decoration)]
  | _ => True
  end /\
  (forall rt c doc, exists ops,
      decoration rt c doc = (Normal tt, (c ++ ops)%list) /\
      In (circle cx cy (PyInt 60) 1 1) ops /\
      In (circle cx cy (PyInt 52) 1 0) ops /\
      forall g saved,
        filter centred (texts_from g saved ops)
        = badge_texts rt total_avg classification) /\
  (is_finite (PyFloat total_avg) = true ->
   two_decimals (float_format_2f total_avg) = true) /\
  above (plus cy 6) (minus cy 15) = true /\
  above (minus cy 15) (minus cy 52) = true /\
  above (minus cy 60) (minus cy 85) = true.
Proof.
  cbv zeta.
  split; [| split; [| split; [| split; [| split; [apply float_format_two_decimals |]]]]].
  - pose proof (generate_summary h subjects total_avg classification filename w) as G.
    destruct (run h (generate _ _ _ _) w) as [[o w'] tr].
    destruct G as (_ & _ & [Hh | Hh] & _); cbn [trace_of snd]; rewrite Hh; repeat constructor.
  - intros Hd Q.
    destruct (displayable_run h w subjects total_avg classification filename Hd Q)
      as (d & p & _ & _ & Hh & _).
    exact Hh.
  - pose proof (generate_summary h subjects total_avg classification filename w) as G.
    destruct (run h (generate _ _ _ _) w) as [[o w'] tr].
    destruct G as (_ & _ & _ & ok & msg & -> & Hok). cbn [result_of trace_of fst snd].
    destruct ok; [apply Hok | exact I].
  - intros rt c doc.
    exists (snd (the_hook total_avg classification rt [] doc)).
    split; [| split; [| split]].
    + rewrite (the_hook_appends total_avg classification rt doc c).
      rewrite the_hook_returns. reflexivity.
    + vm_compute. repeat first [left; reflexivity | right].
    + vm_compute. repeat first [left; reflexivity | right].
    + intros g saved. vm_compute. reflexivity.
  - vm_compute. auto.
Qed.

(** ** Instances: the report of the spec's example, and the empty one *)

Lemma totals_row_sums_witness :
  let x := run Nominal.respond Sample.good_report Nominal.desktop in
  data_ok Sample.subjects = true /\ quiet (trace_of x) = true /\
  exists d p,
    tables_built (trace_of x) = [d] /\ last d [] = totals_row "7" "97.50" /\
    result_of x = Normal (true, "Saved to: " ++ p).
Proof.
  cbv zeta.
  assert (Hd : data_ok Sample.subjects = true) by (vm_compute; reflexivity).
  assert (Q : quiet (trace_of (run Nominal.respond Sample.good_report Nominal.desktop))
              = true) by (vm_compute; reflexivity).
  split; [exact Hd | split; [exact Q |]].
  destruct (totals_row_sums Nominal.respond Nominal.desktop Sample.subjects
              Sample.total_avg "good" "good_report.pdf") as (_ & P & _).
  destruct (P Hd Q) as (d & p & Ht & (tc & tw & cs & ws & Hc & Hw & Hs & Hf & Hl) & Hr).
  exists d, p. split; [exact Ht | split; [| exact Hr]].
  vm_compute in Hc. injection Hc as <-.
  vm_compute in Hw. injection Hw as <-.
  vm_compute in Hs. injection Hs as <-.
  vm_compute in Hf. injection Hf as <-.
  exact Hl.
Defined.

Lemma empty_report_table_witness :
  let x := run Nominal.respond Sample.empty_report Nominal.desktop in
  quiet (trace_of x) = true /\
  tables_built (trace_of x) = [[header_row; totals_row "0" "0.00"]] /\
  exists p, result_of x = Normal (true, "Saved to: " ++ p).
Proof.
  cbv zeta.
  assert (Q : quiet (trace_of (run Nominal.respond Sample.empty_report Nominal.desktop))
              = true) by (vm_compute; reflexivity).
  split; [exact Q |].
  destruct (empty_report_table Nominal.respond Nominal.desktop Sample.total_avg
              "good" "empty.pdf") as (_ & P & _).
  exact (P Q).
Defined.

Lemma badge_on_every_page_witness :
  let x := run Nominal.respond Sample.good_report Nominal.phone in
  let decoration := the_hook Sample.total_avg "good" in
  data_ok Sample.subjects = true /\ quiet (trace_of x) = true /\
  hooks_registered (trace_of x) = [(decoration, decoration)] /\
  map (fun doc =>
         map (fun page =>
                map sh_text (filter centred (texts_from (GState white ("", PyInt 0)) [] page)))
             (snd doc))
      (Nominal.documents (world_of x))
  = [[["13.80"; "/ 20"; "PERFORMANCE: GOOD"]; ["13.80"; "/ 20"; "PERFORMANCE: GOOD"]]].
Proof.
  cbv zeta.
  assert (Hd : data_ok Sample.subjects = true) by (vm_compute; reflexivity).
  assert (Q : quiet (trace_of (run Nominal.respond Sample.good_report Nominal.phone))
              = true) by (vm_compute; reflexivity).
  split; [exact Hd | split; [exact Q |]].
  destruct (badge_on_every_page Nominal.respond Nominal.phone Sample.subjects
              Sample.total_avg "good" "good_report.pdf") as (_ & P & _).
  split; [exact (P Hd Q) |].
  vm_compute. reflexivity.
Defined.

(* ================================================================== *)
(** * Further properties of the service                                 *)
(* ================================================================== *)

(** X1. Every table [generate] hands to the engine has one row per
    subject plus the header and the totals, starts with the header row,
    and has four cells in every row. *)
Theorem table_shape {W} (h : handler W) (w : W)
    subjects total_avg classification filename :
  Forall (fun d => List.length d = (List.length subjects + 2)%nat /\
                   hd [] d = header_row /\
                   Forall (fun r : row => List.length r = 4%nat) d)
    (tables_built
       (trace_of (run h (generate subjects total_avg classification filename) w))).
Proof.
  pose proof (generate_summary h subjects total_avg classification filename w) as G.
  destruct (run h (generate _ _ _ _) w) as [[o w'] tr].
  destruct G as (_ & Ht & _). cbn [trace_of snd].
  destruct Ht as [-> | (d & -> & rows & tc & tw & cs & ws & -> & Hrows & _)];
    constructor; [| constructor].
  assert (L : List.length rows = List.length subjects /\ Forall (fun r : row => List.length r = 4%nat) rows).
  { clear - Hrows. induction Hrows as [| sub r subs rs (a & c & w & _ & _ & _ & ->) _ IH].
    - split; [reflexivity | constructor].
    - destruct IH as [IH1 IH2]. split; [simpl; congruence |].
      constructor; [reflexivity | exact IH2]. }
  destruct L as [L1 L2]. repeat split.
  - cbn [List.length]. rewrite List.length_app, L1. cbn [List.length]. lia.
  - constructor; [reflexivity |]. apply Forall_app. split; [exact L2 |].
    constructor; [reflexivity | constructor].
Qed.

(** X2. [generate] stops at the first call that raises: in every run
    all calls but the last were answered with a value; and a run that
    reports success had every call answered with a value. *)
Theorem stops_at_first_failure {W} (h : handler W) (w : W)
    subjects total_avg classification filename :
  let x := run h (generate subjects total_avg classification filename) w in
  quiet (removelast (trace_of x)) = true /\
  match result_of x with
  | Normal (true, _) => quiet (trace_of x) = true
  | _ => True
  end.
Proof.
  cbv zeta.
  pose proof (generate_course h subjects total_avg classification filename w) as G.
  destruct (run h (generate _ _ _ _) w) as [[o w'] tr].
  destruct G as (Q & _ & G). cbn [result_of trace_of fst snd]. split; [exact Q |].
  destruct G as [(_ & _ & msg & -> & _) | (p & tr1 & d & ans & _ & Q1 & C & _ & -> & ->)];
    [exact I |].
  destruct ans as [u | e]; cbn [verdict]; [| exact I].
  destruct (names_quiet subjects) as (Nq & _).
  rewrite !quiet_app, Q1, Nq. reflexivity.
Qed.

(** X3. The success flag [generate] returns is [True] exactly when
    [doc.build] was called and returned. *)
Theorem success_iff_built {W} (h : handler W) (w : W)
    subjects total_avg classification filename :
  let x := run h (generate subjects total_avg classification filename) w in
  exists msg, result_of x = Normal (built_ok (trace_of x), msg).
Proof.
  cbv zeta.
  pose proof (generate_course h subjects total_avg classification filename w) as G.
  destruct (run h (generate _ _ _ _) w) as [[o w'] tr].
  destruct G as (_ & _ & G). cbn [result_of trace_of fst snd].
  destruct G as [(_ & -> & msg & -> & _) | (p & tr1 & d & ans & _ & _ & C & _ & -> & ->)].
  - exists msg. reflexivity.
  - destruct (script_facts tr1 p subjects d (the_hook total_avg classification) ans C)
      as (_ & _ & -> & _).
    destruct ans as [u | e]; eexists; reflexivity.
Qed.

(** X4. Whenever [generate] calls [doc.build], whether it then returns
    or raises: the calls of the run are a path selection returning
    [p], the opening, one [Paragraph] per subject in input order, and
    the closing; [doc.build] is called once, last, on the A4 document at
    [p] with the one styled table as its story; and its answer decides
    the result. *)
Theorem build_once_and_last {W} (h : handler W) (w : W)
    subjects total_avg classification filename :
  let x := run h (generate subjects total_avg classification filename) w in
  builds (trace_of x) = [] \/
  exists p tr1 d ans,
    selection filename p tr1 /\ table_for subjects d /\
    trace_of x = (tr1 ++ opening p ++ names subjects ++
                  closing d p (the_hook total_avg classification) ans)%list /\
    builds (trace_of x) = [(document p, [the_table d])] /\
    tables_built (trace_of x) = [d] /\
    result_of x = Normal (verdict p ans).
Proof.
  cbv zeta.
  pose proof (generate_course h subjects total_avg classification filename w) as G.
  destruct (run h (generate _ _ _ _) w) as [[o w'] tr].
  destruct G as (_ & _ & G). cbn [result_of trace_of fst snd].
  destruct G as [(Hb & _) | (p & tr1 & d & ans & S & _ & C & T & -> & ->)].
  - left. exact Hb.
  - right. exists p, tr1, d, ans.
    destruct (script_facts tr1 p subjects d (the_hook total_avg classification) ans C)
      as (Fb & Ft & _).
    repeat split; auto.
Qed.

(** X5. On data that can be displayed (every average and weighted
    score, and their running total, can be formatted by [.2f]; every
    coefficient, and their total, can be printed by [str()]; both
    running sums can be computed) [generate] fails only when a call
    fails: a run in which every call was answered with a value reports
    success. *)
Theorem displayable_data_succeeds {W} (h : handler W) (w : W)
    subjects total_avg classification filename :
  data_ok subjects = true ->
  quiet (trace_of (run h (generate subjects total_avg classification filename) w)) = true ->
  exists p,
    result_of (run h (generate subjects total_avg classification filename) w)
    = Normal (true, "Saved to: " ++ p).
Proof.
  pose proof (generate_course h subjects total_avg classification filename w) as G.
  destruct (run h (generate _ _ _ _) w) as [[o w'] tr].
  destruct G as (_ & _ & G). cbn [result_of trace_of fst snd]. intros Hord Q.
  destruct G as [(_ & _ & msg & _ & F) | (p & tr1 & d & ans & _ & _ & C & _ & -> & ->)].
  - destruct (F Q Hord).
  - destruct (script_facts tr1 p subjects d (the_hook total_avg classification) ans C)
      as (_ & _ & _ & N).
    destruct (N Q) as [u ->]. exists p. reflexivity.
Qed.

(** X6. When the average or the weighted score of some subject cannot
    be formatted (an [int] too large for a float), [generate] reports a
    failure and neither builds a table nor calls [doc.build]. *)
Theorem unformattable_subject_fails {W} (h : handler W) (w : W)
    subjects total_avg classification filename :
  existsb unformattable subjects = true ->
  let x := run h (generate subjects total_avg classification filename) w in
  tables_built (trace_of x) = [] /\ builds (trace_of x) = [] /\
  exists msg, result_of x = Normal (false, msg).
Proof.
  intros U. cbv zeta.
  assert (N : forall d, ~ table_for subjects d).
  { intros d (rows & _ & _ & _ & _ & _ & Hrows & _).
    apply existsb_exists in U. destruct U as (sub & Hin & Hu).
    assert (D : exists r, displays sub r).
    { clear - Hrows Hin. induction Hrows as [| s r subs rs Hd _ IH]; [destruct Hin |].
      destruct Hin as [-> | Hin]; eauto. }
    destruct D as (r & a & cs & ws & Ha & _ & Hw & _).
    unfold unformattable, formats in Hu. rewrite Ha, Hw in Hu. discriminate Hu. }
  pose proof (generate_summary h subjects total_avg classification filename w) as S.
  pose proof (generate_course h subjects total_avg classification filename w) as G.
  destruct (run h (generate _ _ _ _) w) as [[o w'] tr].
  destruct S as (_ & St & _). destruct G as (_ & _ & G).
  cbn [result_of trace_of fst snd].
  destruct G as [(Hb & _ & msg & -> & _) | (p & tr1 & d & ans & _ & _ & _ & T & _)];
    [| destruct (N d T)].
  destruct St as [St | (d & _ & T)]; [| destruct (N d T)].
  repeat split; eauto.
Qed.

(** X7. [generate] reaches [os.makedirs] only after both existence
    checks answered [False], calls it at most once, and on the home
    [Downloads] path. *)
Theorem makedirs_only_when_needed {W} (h : handler W) (w : W)
    subjects total_avg classification filename :
  let tr := trace_of (run h (generate subjects total_avg classification filename) w) in
  made tr = [] \/
  exists home desktop ans rest,
    tr = (probes home desktop ++
          Event (os_path_exists android_path) (Normal false)
          :: Event (os_path_exists desktop) (Normal false)
          :: Event (os_makedirs desktop) ans :: rest)%list /\
    made tr = [desktop].
Proof.
  cbv zeta.
  pose proof (generate_course h subjects total_avg classification filename w) as G.
  destruct (run h (generate _ _ _ _) w) as [[o w'] tr].
  destruct G as (_ & M & _). exact M.
Qed.

(** X8. The task calls the callback last, after every call of
    [generate], and does not catch what it raises: the answer of the
    callback is the outcome of the task.  Without a callback the task
    is the run of [generate] and returns [None]. *)
Theorem callback_is_last {W} (h : handler W) (w : W)
    subjects total_avg classification filename :
  let x := run h (generate subjects total_avg classification filename) w in
  exists res,
    result_of x = Normal res /\
    (forall f,
       let ans := h unit (invoke f res) (world_of x) in
       run h (task subjects total_avg classification filename (Some f)) w
       = (fst ans, snd ans, (trace_of x ++ [Event (invoke f res) (fst ans)])%list)) /\
    run h (task subjects total_avg classification filename None) w
    = (Normal tt, world_of x, trace_of x).
Proof.
  cbv zeta.
  pose proof (generate_summary h subjects total_avg classification filename w) as G.
  destruct (run h (generate _ _ _ _) w) as [[o w1] tr] eqn:E.
  destruct G as (_ & _ & _ & ok & msg & -> & _).
  exists (ok, msg). cbn [result_of world_of trace_of fst snd]. repeat split.
  - intros f. cbv zeta. unfold task. rewrite (run_bind h), E.
    rewrite (run_perform h). reflexivity.
  - unfold task. rewrite (run_bind h), E. cbn [run]. rewrite app_nil_r. reflexivity.
Qed.

(** X9. The decoration draws the same operations on every page: they
    depend on the average, the label and the runtime (its date text and
    its [str.upper]) only, not on what the canvas holds nor on the
    document; and it leaves the fill colour and the font as it found
    them, so what is drawn after it shows as if the decoration had not
    run. *)
Theorem decoration_is_self_contained total_avg classification rt :
  exists ops,
    (forall c doc,
       the_hook total_avg classification rt c doc = (Normal tt, (c ++ ops)%list)) /\
    (forall g saved after,
       texts_from g saved (ops ++ after)
       = (texts_from g saved ops ++ texts_from g saved after)%list).
Proof.
  exists (snd (the_hook total_avg classification rt [] (document ""))). split.
  - intros c doc.
    rewrite (the_hook_appends total_avg classification rt doc c).
    rewrite the_hook_returns. reflexivity.
  - intros g saved after. vm_compute. reflexivity.
Qed.

(** X10. On every page the decoration fills the slanted banner (the
    page top, 140 points deep on the right and 100 on the left), rules
    the footer at height 50 between the margins of 50, and its texts
    that are not centred are the title and the date text, right-aligned
    40 points from the right edge, and in the footer the product name
    on the left and the attribution on the right; none of them depends
    on the average or the label. *)
Theorem banner_and_footer total_avg classification rt c doc :
  exists ops,
    the_hook total_avg classification rt c doc = (Normal tt, (c ++ ops)%list) /\
    In (drawPath banner 1 0) ops /\
    In (line (PyInt 50) (PyInt 50) (minus (PyFloat (fst A4)) 50) (PyInt 50)) ops /\
    forall g saved,
      filter (fun t => negb (centred t)) (texts_from g saved ops) = frame_texts rt.
Proof.
  exists (snd (the_hook total_avg classification rt [] doc)).
  split; [| split; [| split]].
  - rewrite (the_hook_appends total_avg classification rt doc c).
    rewrite the_hook_returns. reflexivity.
  - vm_compute. repeat first [left; reflexivity | right].
  - vm_compute. repeat first [left; reflexivity | right].
  - intros g saved. vm_compute. reflexivity.
Qed.

(** X11. In every table [generate] hands to the engine, the totals row
    shows [str()] of the total coefficient and [.2f] of the total
    weighted score: an integer numeral, that of the arithmetic sum,
    when every coefficient is an [int], and a weighted total with two
    decimals when the sum of the weighted scores is finite. *)
Theorem totals_display {W} (h : handler W) (w : W)
    subjects total_avg classification filename :
  Forall (fun d =>
            exists total_c total_w coefficient weighted,
              last d [] = totals_row coefficient weighted /\
              sum_in_order (map coeff subjects) = Normal total_c /\
              py_str total_c = Normal coefficient /\
              sum_in_order (map weighted_score subjects) = Normal total_w /\
              format_2f total_w = Normal weighted /\
              (forall zs, map coeff subjects = map PyInt zs ->
                          coefficient = dec (Zsum zs) /\
                          integer_numeral coefficient = true) /\
              (is_finite total_w = true -> two_decimals weighted = true))
    (tables_built
       (trace_of (run h (generate subjects total_avg classification filename) w))).
Proof.
  pose proof (generate_summary h subjects total_avg classification filename w) as G.
  destruct (run h (generate _ _ _ _) w) as [[o w'] tr].
  destruct G as (_ & Ht & _). cbn [trace_of snd].
  destruct Ht as [-> | (d & -> & rows & tc & tw & cs & ws & -> & _ & Hc & Hw & Hs & Hf)];
    constructor; [| constructor].
  assert (Hz : forall zs, map coeff subjects = map PyInt zs -> cs = dec (Zsum zs)).
  { intros zs H. rewrite (total_coefficient_of_ints subjects zs H) in Hc.
    injection Hc as <-. apply py_str_int in Hs. apply Hs. }
  exists tc, tw, cs, ws. repeat split; auto.
  - change (header_row :: rows ++ [totals_row cs ws])%list
      with ((header_row :: rows) ++ [totals_row cs ws])%list.
    apply last_last.
  - rewrite (Hz zs H). apply integer_numeral_dec.
  - intros Fin. exact (format_2f_two_decimals tw ws Hf Fin).
Qed.

(** ** Instances of the conditional properties *)

Lemma displayable_data_succeeds_witness :
  data_ok Sample.subjects = true /\
  quiet (trace_of (run Nominal.respond Sample.good_report Nominal.desktop)) = true /\
  exists p,
    result_of (run Nominal.respond Sample.good_report Nominal.desktop)
    = Normal (true, "Saved to: " ++ p).
Proof.
  split; [vm_compute; reflexivity | split; [vm_compute; reflexivity |]].
  apply (displayable_data_succeeds Nominal.respond Nominal.desktop Sample.subjects
           Sample.total_avg "good" "good_report.pdf").
  - vm_compute. reflexivity.
  - vm_compute. reflexivity.
Defined.

Lemma unformattable_subject_fails_witness :
  existsb unformattable [Sample.math; Huge.olympiad] = true /\
  tables_built (trace_of (run Nominal.respond Huge.report Nominal.desktop)) = [] /\
  builds (trace_of (run Nominal.respond Huge.report Nominal.desktop)) = [] /\
  exists msg, result_of (run Nominal.respond Huge.report Nominal.desktop)
              = Normal (false, msg).
Proof.
  split; [vm_compute; reflexivity |].
  apply (unformattable_subject_fails Nominal.respond Nominal.desktop
           [Sample.math; Huge.olympiad] Sample.total_avg "good" "huge.pdf").
  vm_compute. reflexivity.
Defined.

(** The message of that failure is the one of the conversion. *)
Example huge_average_message :
  result_of (run Nominal.respond Huge.report Nominal.desktop)
  = Normal (false, "int too large to convert to float").
Proof. vm_compute. reflexivity. Qed.

(** A coefficient of 4301 digits cannot be printed: the report fails
    with the message of [str()] although every call was answered, and
    no table is built.  One of 4300 digits can. *)
Example huge_coefficient_message :
  let x := run Nominal.respond Huge.census_report Nominal.desktop in
  data_ok [Huge.census] = false /\ quiet (trace_of x) = true /\
  tables_built (trace_of x) = [] /\
  result_of x
  = Normal (false, "Exceeds the limit (4300 digits) for integer string conversion; use sys.set_int_max_str_digits() to increase the limit") /\
  prints (coeff Huge.survey) = true.
Proof. vm_compute. auto. Qed.

Lemma last_raised_app tr1 tr2 :
  tr2 <> [] -> last_raised (tr1 ++ tr2) = last_raised tr2.
Proof.
  intros H. induction tr1 as [| [R c r] tr1 IH]; [reflexivity |].
  cbn [app last_raised]. destruct r as [v | e]; [exact IH |].
  destruct (tr1 ++ tr2)%list as [| ev rest] eqn:E; [| exact IH].
  apply app_eq_nil in E. destruct E as [_ E]. contradiction.
Qed.

(** X12. On data that can be displayed, a failure [generate] reports
    is the failure of the last call it made: the message is the text of the exception
    that call raised, after ["Path Error: "] when the path selection
    failed and as it is otherwise. *)
Theorem failure_reports_failed_call {W} (h : handler W) (w : W)
    subjects total_avg classification filename msg :
  data_ok subjects = true ->
  result_of (run h (generate subjects total_avg classification filename) w)
    = Normal (false, msg) ->
  exists e,
    last_raised (trace_of (run h (generate subjects total_avg classification filename) w))
      = Some e /\
    msg = match result_of (run h (path_selection filename) w) with
          | Raised _ => "Path Error: " ++ exn_str e
          | Normal _ => exn_str e
          end.
Proof.
  intros Hord. rewrite run_generate.
  pose proof (path_selection_course h filename w) as P.
  destruct (run h (path_selection filename) w) as [[[p | e] w1] tr1];
    destruct P as (_ & Po & _); cbn [result_of fst].
  - pose proof (build_document_course h subjects total_avg classification p
                  (the_hook total_avg classification) w1) as B.
    destruct (run h (build_document _ _ _ _ _ _ _) w1) as [[o w2] tr2].
    destruct B as (_ & _ & B). cbn [trace_of snd].
    destruct B as [(_ & _ & e & -> & F & L) | (d & ans & _ & -> & ->)].
    + cbn [result_of trace_of fst snd].
      intros [= <-]. exists e. split; [| reflexivity].
      destruct (quiet tr2) eqn:Q; [destruct (F eq_refl Hord) |].
      rewrite last_raised_app; [exact (L eq_refl) |].
      intros ->. discriminate Q.
    + destruct ans as [u | e]; cbn [result_of trace_of fst snd verdict];
        [discriminate |].
      intros [= <-]. exists e. split; [| reflexivity].
      rewrite last_raised_app.
      2:{ intros E. apply app_eq_nil in E. destruct E as [E _]. discriminate E. }
      rewrite last_raised_app.
      2:{ intros E. apply app_eq_nil in E. destruct E as [_ E]. discriminate E. }
      rewrite last_raised_app by discriminate. reflexivity.
  - cbn [result_of trace_of fst snd].
    intros [= <-]. exists e. split; [exact (proj2 Po) | reflexivity].
Qed.

Lemma failure_reports_failed_call_witness :
  data_ok Sample.subjects = true /\
  result_of (run Nominal.respond Sample.good_report (Sample.failing 4 Sample.denied))
  = Normal (false, "Path Error: [Errno 13] Permission denied: '/home/karim/Downloads'") /\
  exists e,
    last_raised (trace_of (run Nominal.respond Sample.good_report
                             (Sample.failing 4 Sample.denied))) = Some e /\
    "Path Error: [Errno 13] Permission denied: '/home/karim/Downloads'"
    = match result_of (run Nominal.respond (path_selection "good_report.pdf")
                         (Sample.failing 4 Sample.denied)) with
      | Raised _ => "Path Error: " ++ exn_str e
      | Normal _ => exn_str e
      end.
Proof.
  split; [vm_compute; reflexivity | split; [vm_compute; reflexivity |]].
  apply (failure_reports_failed_call Nominal.respond (Sample.failing 4 Sample.denied)
           Sample.subjects Sample.total_avg "good" "good_report.pdf").
  - vm_compute. reflexivity.
  - vm_compute. reflexivity.
Defined.
